(** * tracking.js: task lifecycle and frame sampling

    A shallow embedding of [TrackerTask] (run/stop state machine and the
    relay of the tracker's [track] events), of the entry point [track] with
    its three element paths ([trackCanvas_], [trackImg_], [trackVideo_]) and
    of the [requestAnimationFrame] loop that samples a video element.

    JavaScript objects are records, mutation is explicit state passing in a
    small state/exception/trace monad, function objects compared by
    reference (the relay closure created by [run]) carry an allocation
    number, and numbers are integers ([Z]); every counter of the program
    stays far below 2^53, where doubles are exact. *)

From Stdlib Require Import List ZArith String Ascii Bool Arith Lia.
Import ListNotations.
Open Scope string_scope.
Open Scope Z_scope.
Open Scope list_scope.

Set Implicit Arguments.

(** ** Values *)

(** [Uint8ClampedArray] of RGBA bytes, row-major. *)
Definition Pixels := list Z.

(** One rectangle of [ViolaJones.detect]. *)
Record Rect := { rect_x : Z; rect_y : Z; rect_width : Z; rect_height : Z; rect_total : Z }.

(** The payload of a [track] event: [{data: results}]. *)
Record TrackEvent := { data : list Rect }.

Inductive Error :=
| Err (msg : string)        (* [new Error(msg)] *)
| TypeError (msg : string)  (* raised by the runtime *)
| DOMException (name : string). (* raised by the DOM, with the name of the error *)

(** What one call of [tracker.track(pixels, width, height)] does: it emits
    [track] events on the tracker, or throws. *)
Inductive TrackResult :=
| Emits (evs : list TrackEvent)
| Raises (e : Error).

Record Tracker := { track_fn : Pixels -> Z -> Z -> TrackResult }.

(** A DOM element, with the properties the program reads. *)
Record Element := {
  nodeName : string;
  el_width : Z;
  el_height : Z;
  offsetWidth : Z;
  offsetHeight : Z;
  el_src : string;
  el_pixels : Pixels   (* what [getImageData(0, 0, width, height).data] returns *)
}.

(** The value of a call that either returns [this] or falls off a bare
    [return;]. *)
Inductive Ret := RetThis | RetUndefined.

(** ** Listeners

    Functions registered on an emitter.  A listener is identified by
    reference: the closure that [run] stores in [reemitTrackEvent_] is a new
    function object at every call, so it carries the number of its
    allocation. *)

(** Listeners of the tracker's [track] event. *)
Inductive TrackerListener :=
| Reemit (c : nat)       (* [function(event) { self.emit('track', event); }] *)
| Subscriber (id : nat). (* a callback registered directly on the tracker *)

(** Listeners of the task's [run] event. *)
Inductive RunListener :=
| RunExternal (id : nat)
| RunCanvas (el : Element) (* [trackCanvas_]: [trackCanvasInternal_(element, tracker)] *)
| RunImg (el : Element)    (* [trackImg_]: [Canvas.loadImage(canvas, element.src, ...)] *)
| RunVideo.                (* [trackVideo_]: [requestAnimationFrame_()] *)

(** Listeners of the task's [stop] event. *)
Inductive StopListener :=
| StopExternal (id : nat)
| StopVideo                  (* [trackVideo_]: [window.cancelAnimationFrame(requestId)] *)
| StopDetect (ev : TrackEvent). (* a callback during which the tracker emits [ev] *)

(** What can be observed of an execution, in order. *)
Inductive Action :=
| TaskEmit (event : string) (payload : option TrackEvent) (* [task.emit(event, payload)] *)
| Heard (id : nat) (event : string) (payload : option TrackEvent)
    (* the external listener [id] of the task is called *)
| TrackerEmit (ev : TrackEvent)      (* [tracker.emit('track', ev)] *)
| Direct (id : nat) (ev : TrackEvent) (* a direct subscriber of the tracker is called *)
| TrackCall (pixels : Pixels) (width height : Z) (* [tracker.track(pixels, width, height)] *)
| FrameRequested (h : nat)           (* [window.requestAnimationFrame(cb)] returned [h] *)
| FrameCancelled (h : nat)           (* [window.cancelAnimationFrame(h)] *)
| ImageLoading (src : string)        (* [Canvas.loadImage] started *)
| UserMedia (audio : bool).          (* [navigator.getUserMedia({video: true, audio})] *)

(** ** State *)

Record TrackerTask := {
  tracker_ : Tracker;
  running_ : bool;
  reemitTrackEvent_ : option nat;     (* [undefined] until the first [run] *)
  events_run : list RunListener;
  events_stop : list StopListener;
  events_track : list nat             (* external listeners of [track] *)
}.

(** What exists before a task does: the tracker's listeners and the window's
    animation-frame queue. *)
Record Env := {
  listeners : list TrackerListener;   (* [tracker.events_['track']] *)
  rafNext : nat;                      (* the next handle the window hands out *)
  rafPending : list nat;              (* callbacks scheduled and not yet fired *)
  nextClosure : nat;                  (* allocation counter of function objects *)
  hasUserMedia : bool                 (* [navigator] has a [getUserMedia] under some name *)
}.

(** The variables [trackVideo_] closes over. *)
Record VideoLoop := {
  freq : Z;
  count : Z;
  requestId : option nat;
  width : Z;
  height : Z;
  canvas : Pixels                     (* contents of the working canvas *)
}.

Record Session := {
  env : Env;
  task : TrackerTask;
  loop : VideoLoop
}.

Definition with_task (t : TrackerTask) (s : Session) : Session :=
  {| env := env s; task := t; loop := loop s |}.
Definition with_env (e : Env) (s : Session) : Session :=
  {| env := e; task := task s; loop := loop s |}.
Definition with_loop (l : VideoLoop) (s : Session) : Session :=
  {| env := env s; task := task s; loop := l |}.

(** ** The monad: state, exceptions and a trace *)

Inductive Result (A : Type) :=
| Ok (a : A)
| Throw (e : Error).
Arguments Throw {A} e.

Definition M (A : Type) := Session -> Result A * Session * list Action.

Definition ret {A} (a : A) : M A := fun s => (Ok a, s, []).
Definition throw {A} (e : Error) : M A := fun s => (Throw e, s, []).
Definition bind {A B} (m : M A) (k : A -> M B) : M B :=
  fun s =>
    match m s with
    | (Ok a, s1, t1) =>
        match k a s1 with
        | (r, s2, t2) => (r, s2, t1 ++ t2)
        end
    | (Throw e, s1, t1) => (Throw e, s1, t1)
    end.
Definition get : M Session := fun s => (Ok s, s, []).
Definition modify (f : Session -> Session) : M unit := fun s => (Ok tt, f s, []).
Definition log (a : Action) : M unit := fun s => (Ok tt, s, [a]).

Notation "x <- m ;; k" := (bind m (fun x => k))
  (at level 61, m at next level, right associativity).
Notation "m ;; k" := (bind m (fun _ => k))
  (at level 61, right associativity).

(** [for (i = 0; i < l.length; i++) f(l[i])]; an exception ends the loop. *)
Fixpoint forM {A} (f : A -> M unit) (l : list A) : M unit :=
  match l with
  | [] => ret tt
  | x :: l' => f x ;; forM f l'
  end.

Definition result_of {A} (o : Result A * Session * list Action) : Result A := fst (fst o).
Definition state_of {A} (o : Result A * Session * list Action) : Session := snd (fst o).
Definition trace_of {A} (o : Result A * Session * list Action) : list Action := snd o.

(** ** EventEmitter *)

Definition TrackerListener_eqb (a b : TrackerListener) : bool :=
  match a, b with
  | Reemit c, Reemit d => Nat.eqb c d
  | Subscriber i, Subscriber j => Nat.eqb i j
  | _, _ => false
  end.

Module EventEmitter.

(** Modelled from the spec: [utils/EventEmitter] is not among the sources.
    The spec describes a per-instance publish/subscribe mechanism: [on]
    subscribes a listener, [removeListener] removes the subscription of that
    very listener, and [emit] calls the subscribed listeners in the order of
    their subscription.  [on] appends to the list of the event. *)
Definition on {L} (ls : list L) (l : L) : list L := ls ++ [l].

(** Modelled from the spec: [removeListener] of the missing
    [utils/EventEmitter]; it takes out the first subscription of the
    listener and leaves the list as it is when there is none. *)
Fixpoint removeListener (ls : list TrackerListener) (l : TrackerListener)
  : list TrackerListener :=
  match ls with
  | [] => []
  | x :: ls' => if TrackerListener_eqb x l then ls' else x :: removeListener ls' l
  end.

(** Modelled from the spec: [emit] of the missing [utils/EventEmitter]; it
    calls the listeners subscribed to the event, in the order of their
    subscription, each with the payload; what a listener throws ends the
    emission and reaches the caller of [emit]. *)
Definition emit {L} (call : L -> M unit) (ls : list L) : M unit := forM call ls.

End EventEmitter.

(** The closure numbers of the relays subscribed on the tracker. *)
Fixpoint relays (ls : list TrackerListener) : list nat :=
  match ls with
  | [] => []
  | Reemit c :: ls' => c :: relays ls'
  | Subscriber _ :: ls' => relays ls'
  end.

(** ** Emitting

    One definition per emitter and event.  The callbacks that users register
    are opaque: a call of one is recorded in the trace, and it neither
    throws nor calls [run] or [stop] itself. *)

(** [task.emit('track', ev)]: every external listener of the task hears
    [ev]. *)
Definition task_emit_track (ev : TrackEvent) : M unit :=
  log (TaskEmit "track" (Some ev)) ;;
  s <- get ;;
  EventEmitter.emit (fun id => log (Heard id "track" (Some ev))) (events_track (task s)).

(** Calling one listener of the tracker's [track] event. *)
Definition call_tracker_listener (ev : TrackEvent) (l : TrackerListener) : M unit :=
  match l with
  | Reemit _ => task_emit_track ev    (* [self.emit('track', event)] *)
  | Subscriber id => log (Direct id ev)
  end.

(** [tracker.emit('track', ev)]. *)
Definition tracker_emit (ev : TrackEvent) : M unit :=
  log (TrackerEmit ev) ;;
  s <- get ;;
  EventEmitter.emit (call_tracker_listener ev) (listeners (env s)).

(** ** The window's animation frames *)

(** [window.requestAnimationFrame(cb)]: the callback is queued under a new
    handle. *)
Definition window_requestAnimationFrame : M nat :=
  s <- get ;;
  let h := rafNext (env s) in
  modify (with_env {| listeners := listeners (env s);
                      rafNext := S h;
                      rafPending := rafPending (env s) ++ [h];
                      nextClosure := nextClosure (env s);
                      hasUserMedia := hasUserMedia (env s) |}) ;;
  log (FrameRequested h) ;;
  ret h.

(** [window.cancelAnimationFrame(id)]: a handle that is not pending, or
    [undefined], cancels nothing. *)
Definition window_cancelAnimationFrame (id : option nat) : M unit :=
  match id with
  | None => ret tt
  | Some h =>
      s <- get ;;
      modify (with_env {| listeners := listeners (env s);
                          rafNext := rafNext (env s);
                          rafPending := List.remove Nat.eq_dec h (rafPending (env s));
                          nextClosure := nextClosure (env s);
                          hasUserMedia := hasUserMedia (env s) |}) ;;
      log (FrameCancelled h)
  end.

(** ** tracking.js: extraction *)

(** A canvas without width or without height. *)
Definition zero_sized (w h : Z) : bool := (w =? 0) || (h =? 0).

(** [context.getImageData(0, 0, width, height)] on a canvas that holds
    [pixels]: it throws an [IndexSizeError] when the width or the height
    is 0. *)
Definition getImageData (pixels : Pixels) (w h : Z) : Result Pixels :=
  if zero_sized w h then Throw (DOMException "IndexSizeError") else Ok pixels.

(** [trackCanvasInternal_(element, tracker)]: reads the pixels of the canvas
    and hands them to [tracker.track]; the tracker's events are emitted
    while [track] runs, and neither what [getImageData] throws nor what
    [track] throws is caught. *)
Definition trackCanvasInternal_ (pixels : Pixels) (w h : Z) : M unit :=
  s <- get ;;
  match getImageData pixels w h with
  | Throw e => throw e
  | Ok imageData =>
      log (TrackCall imageData w h) ;;
      match track_fn (tracker_ (task s)) imageData w h with
      | Emits evs => forM tracker_emit evs
      | Raises e => throw e
      end
  end.

Definition set_requestId (id : option nat) (l : VideoLoop) : VideoLoop :=
  {| freq := freq l; count := count l; requestId := id;
     width := width l; height := height l; canvas := canvas l |}.
Definition set_count (c : Z) (l : VideoLoop) : VideoLoop :=
  {| freq := freq l; count := c; requestId := requestId l;
     width := width l; height := height l; canvas := canvas l |}.
Definition set_canvas (px : Pixels) (l : VideoLoop) : VideoLoop :=
  {| freq := freq l; count := count l; requestId := requestId l;
     width := width l; height := height l; canvas := px |}.

(** [requestAnimationFrame_()]: schedules the tick callback and keeps its
    handle in [requestId]. *)
Definition requestAnimationFrame_ : M unit :=
  h <- window_requestAnimationFrame ;;
  s <- get ;;
  modify (with_loop (set_requestId (Some h) (loop s))).

(** ** TrackerTask *)

Definition inRunning : M bool := s <- get ;; ret (running_ (task s)).

Definition setRunning (running : bool) : M unit :=
  s <- get ;;
  let t := task s in
  modify (with_task {| tracker_ := tracker_ t; running_ := running;
                       reemitTrackEvent_ := reemitTrackEvent_ t;
                       events_run := events_run t; events_stop := events_stop t;
                       events_track := events_track t |}).

(** [this.reemitTrackEvent_ = function(event) {...}]: a new function
    object. *)
Definition new_reemitTrackEvent_ : M nat :=
  s <- get ;;
  let c := nextClosure (env s) in
  let t := task s in
  modify (fun s =>
    {| env := {| listeners := listeners (env s); rafNext := rafNext (env s);
                 rafPending := rafPending (env s); nextClosure := S c;
                 hasUserMedia := hasUserMedia (env s) |};
       task := {| tracker_ := tracker_ t; running_ := running_ t;
                  reemitTrackEvent_ := Some c;
                  events_run := events_run t; events_stop := events_stop t;
                  events_track := events_track t |};
       loop := loop s |}) ;;
  ret c.

Definition set_listeners (ls : list TrackerListener) (e : Env) : Env :=
  {| listeners := ls; rafNext := rafNext e; rafPending := rafPending e;
     nextClosure := nextClosure e; hasUserMedia := hasUserMedia e |}.

(** [this.tracker_.on('track', l)]. *)
Definition tracker_on (l : TrackerListener) : M unit :=
  s <- get ;;
  modify (with_env (set_listeners (EventEmitter.on (listeners (env s)) l) (env s))).

(** [this.tracker_.removeListener('track', this.reemitTrackEvent_)]. *)
Definition tracker_removeListener (f : option nat) : M unit :=
  match f with
  | None => ret tt
  | Some c =>
      s <- get ;;
      modify (with_env (set_listeners
                (EventEmitter.removeListener (listeners (env s)) (Reemit c)) (env s)))
  end.

(** Calling one listener of [run].  [Canvas.loadImage] (of [utils/Canvas],
    not among the sources) loads the image and extracts when it has
    arrived; only its start is recorded here. *)
Definition call_run_listener (l : RunListener) : M unit :=
  match l with
  | RunExternal id => log (Heard id "run" None)
  | RunCanvas el => trackCanvasInternal_ (el_pixels el) (el_width el) (el_height el)
  | RunImg el => log (ImageLoading (el_src el))
  | RunVideo => requestAnimationFrame_
  end.

(** Calling one listener of [stop]. *)
Definition call_stop_listener (l : StopListener) : M unit :=
  match l with
  | StopExternal id => log (Heard id "stop" None)
  | StopVideo => s <- get ;; window_cancelAnimationFrame (requestId (loop s))
  | StopDetect ev => tracker_emit ev
  end.

(** [this.emit('run')]. *)
Definition emit_run : M unit :=
  log (TaskEmit "run" None) ;;
  s <- get ;;
  EventEmitter.emit call_run_listener (events_run (task s)).

(** [this.emit('stop')]. *)
Definition emit_stop : M unit :=
  log (TaskEmit "stop" None) ;;
  s <- get ;;
  EventEmitter.emit call_stop_listener (events_stop (task s)).

(** [TrackerTask.prototype.run]. *)
Definition run : M Ret :=
  r <- inRunning ;;
  if r then ret RetUndefined
  else
    setRunning true ;;
    c <- new_reemitTrackEvent_ ;;
    tracker_on (Reemit c) ;;
    emit_run ;;
    ret RetThis.

(** [TrackerTask.prototype.stop]. *)
Definition stop : M Ret :=
  r <- inRunning ;;
  if negb r then ret RetUndefined
  else
    setRunning false ;;
    emit_stop ;;
    s <- get ;;
    tracker_removeListener (reemitTrackEvent_ (task s)) ;;
    ret RetThis.

(** [new TrackerTask(tracker)]; [None] is a missing (falsy) tracker. *)
Definition new_TrackerTask (tracker : option Tracker) : Result TrackerTask :=
  match tracker with
  | None => Throw (Err "Tracker instance not specified.")
  | Some tr =>
      Ok {| tracker_ := tr; running_ := false; reemitTrackEvent_ := None;
            events_run := []; events_stop := []; events_track := [] |}
  end.

(** [task.on('run', l)], [task.on('stop', l)], [task.on('track', l)]. *)
Definition on_run (l : RunListener) (t : TrackerTask) : TrackerTask :=
  {| tracker_ := tracker_ t; running_ := running_ t;
     reemitTrackEvent_ := reemitTrackEvent_ t;
     events_run := EventEmitter.on (events_run t) l;
     events_stop := events_stop t; events_track := events_track t |}.
Definition on_stop (l : StopListener) (t : TrackerTask) : TrackerTask :=
  {| tracker_ := tracker_ t; running_ := running_ t;
     reemitTrackEvent_ := reemitTrackEvent_ t;
     events_run := events_run t;
     events_stop := EventEmitter.on (events_stop t) l;
     events_track := events_track t |}.
Definition on_track (id : nat) (t : TrackerTask) : TrackerTask :=
  {| tracker_ := tracker_ t; running_ := running_ t;
     reemitTrackEvent_ := reemitTrackEvent_ t;
     events_run := events_run t; events_stop := events_stop t;
     events_track := EventEmitter.on (events_track t) id |}.

(** ** tracking.js: the three element paths *)

(** [opt_options], when it is an object; [opt_freq] is [None] when the
    object has no [freq] property. *)
Record Options := {
  opt_freq : option Z;
  opt_camera : bool;
  opt_audio : bool
}.

(** Thrown before a task exists, or a session whose task was constructed and
    [run] (with what [task.run()] returned or threw). *)
Inductive Started :=
| Failed (e : Error) (en : Env) (acts : list Action)
| Launched (r : Result Ret) (s : Session) (acts : list Action).

(** A new canvas is transparent black. *)
Definition blank (w h : Z) : Pixels := repeat 0 (Z.to_nat (w * h * 4)).

(** The closure variables of a session that has no video loop. *)
Definition no_loop : VideoLoop :=
  {| freq := 100; count := 0; requestId := None; width := 0; height := 0; canvas := [] |}.

Definition launch (s : Session) : Started :=
  match run s with
  | (r, s', acts) => Launched r s' acts
  end.

(** [trackCanvas_(element, tracker)]. *)
Definition trackCanvas_ (element : Element) (tracker : option Tracker) (en : Env) : Started :=
  match new_TrackerTask tracker with
  | Throw e => Failed e en []
  | Ok t =>
      launch {| env := en; task := on_run (RunCanvas element) t; loop := no_loop |}
  end.

(** [trackImg_(element, tracker)]. *)
Definition trackImg_ (element : Element) (tracker : option Tracker) (en : Env) : Started :=
  match new_TrackerTask tracker with
  | Throw e => Failed e en []
  | Ok t =>
      launch {| env := en; task := on_run (RunImg element) t; loop := no_loop |}
  end.

(** ['freq' in opt_options ? opt_options.freq : 100]; the [in] operator
    throws on [undefined]. *)
Definition read_freq (opt_options : option Options) : Result Z :=
  match opt_options with
  | None => Throw (TypeError "Cannot use 'in' operator to search for 'freq' in undefined")
  | Some o =>
      match opt_freq o with
      | Some f => Ok f
      | None => Ok 100
      end
  end.

(** [trackVideo_(element, tracker, opt_options)]; [resizeCanvas_()] takes
    the dimensions of the element (its repetition at a [resize] event of the
    element is left out). *)
Definition trackVideo_ (element : Element) (tracker : option Tracker)
    (opt_options : option Options) (en : Env) : Started :=
  match read_freq opt_options with
  | Throw e => Failed e en []
  | Ok f =>
      let w := offsetWidth element in
      let h := offsetHeight element in
      let l := {| freq := f; count := 0; requestId := None;
                  width := w; height := h; canvas := blank w h |} in
      match new_TrackerTask tracker with
      | Throw e => Failed e en []
      | Ok t =>
          launch {| env := en; task := on_run RunVideo (on_stop StopVideo t); loop := l |}
      end
  end.

(** ** The tick callback of [trackVideo_] *)

(** What the video element offers when a callback runs: its [readyState],
    and the pixels that [context.drawImage] puts on the canvas, or [None]
    when [drawImage] throws. *)
Record Frame := {
  readyState : Z;
  drawn : option Pixels
}.

Definition HAVE_ENOUGH_DATA : Z := 4.

(** [c % f == 0]; [c % 0] is [NaN], which equals nothing. *)
Definition divides_tick (c f : Z) : bool :=
  if f =? 0 then false else Z.rem c f =? 0.

(** [try { context.drawImage(element, 0, 0, width, height); } catch (err) {}] *)
Definition drawImage_caught (f : Frame) : M unit :=
  match drawn f with
  | Some px => s <- get ;; modify (with_loop (set_canvas px (loop s)))
  | None => ret tt
  end.

(** The function passed to [window.requestAnimationFrame]. *)
Definition tick (f : Frame) : M unit :=
  s <- get ;;
  let c := count (loop s) + 1 in
  modify (with_loop (set_count c (loop s))) ;;
  (if divides_tick c (freq (loop s)) then
     s <- get ;;
     modify (with_loop (set_count 0 (loop s))) ;;
     if readyState f =? HAVE_ENOUGH_DATA then
       drawImage_caught f ;;
       s <- get ;;
       trackCanvasInternal_ (canvas (loop s)) (width (loop s)) (height (loop s))
     else ret tt
   else ret tt) ;;
  requestAnimationFrame_.

(** The window fires the oldest pending callback, if there is one. *)
Definition animationFrame (f : Frame) : M unit :=
  s <- get ;;
  match rafPending (env s) with
  | [] => ret tt
  | _ :: rest =>
      modify (with_env {| listeners := listeners (env s); rafNext := rafNext (env s);
                          rafPending := rest; nextClosure := nextClosure (env s);
                          hasUserMedia := hasUserMedia (env s) |}) ;;
      tick f
  end.

(** A run of animation frames; what a callback throws reaches the window and
    nobody else. The trace of each frame is kept apart. *)
Fixpoint frames (fs : list Frame) (s : Session) : list (list Action) * Session :=
  match fs with
  | [] => ([], s)
  | f :: fs' =>
      match animationFrame f s with
      | (_, s1, acts) =>
          match frames fs' s1 with
          | (rest, s2) => (acts :: rest, s2)
          end
      end
  end.

Definition is_TrackCall (a : Action) : bool :=
  match a with TrackCall _ _ _ => true | _ => false end.

(** Does the trace of a frame hold an extraction? *)
Definition extracted (acts : list Action) : bool := existsb is_TrackCall acts.

(** The numbers (from 1) of the frames that extracted. *)
Fixpoint extraction_ticks (k : nat) (traces : list (list Action)) : list nat :=
  match traces with
  | [] => []
  | acts :: rest =>
      if extracted acts then k :: extraction_ticks (S k) rest
      else extraction_ticks (S k) rest
  end.

(** The number of calls of [tracker.track] in a trace. *)
Definition track_calls (acts : list Action) : nat :=
  List.length (filter is_TrackCall acts).

(** ** tracking.js: [track] *)

(** The first argument of [track]: a CSS selector, a DOM node, or nothing
    ([null] or [undefined]). *)
Inductive Handle :=
| Selector (sel : string)
| Node (el : Element)
| NoHandle.

(** [document.querySelector]: the first element that the selector matches,
    [null] when it matches none; it throws when the selector is not
    valid. *)
Definition Document := string -> Result (option Element).

(** [isNode(o)]: [o.nodeType || isWindow(o)]; reading a property of [null]
    throws. *)
Definition isNode (o : Handle) : Result bool :=
  match o with
  | Selector _ => Ok false
  | Node _ => Ok true
  | NoHandle => Throw (TypeError "Cannot read properties of null (reading 'nodeType')")
  end.

(** [one(selector)]. *)
Definition one (doc : Document) (selector : Handle) : Result (option Element) :=
  match isNode selector with
  | Throw e => Throw e
  | Ok true => match selector with Node el => Ok (Some el) | _ => Ok None end
  | Ok false => match selector with Selector sel => doc sel | _ => Ok None end
  end.

Definition lower_ascii (c : ascii) : ascii :=
  let n := nat_of_ascii c in
  if andb (Nat.leb 65 n) (Nat.leb n 90) then ascii_of_nat (n + 32) else c.

(** [String.prototype.toLowerCase], on the ASCII names of elements. *)
Fixpoint toLowerCase (s : string) : string :=
  match s with
  | EmptyString => EmptyString
  | String c s' => String (lower_ascii c) (toLowerCase s')
  end.

(** [initUserMedia_(element, opt_options)]: asks for the camera through
    [navigator.getUserMedia], after having looked for it under its four
    names; when the navigator has none of them the call throws. *)
Definition initUserMedia_ (opt_options : option Options) (en : Env) : Result (list Action) :=
  if hasUserMedia en then
    Ok [UserMedia (match opt_options with Some o => opt_audio o | None => false end)]
  else Throw (TypeError "navigator.getUserMedia is not a function").

Definition prepend (acts : list Action) (st : Started) : Started :=
  match st with
  | Failed e en acts' => Failed e en (acts ++ acts')
  | Launched r s acts' => Launched r s (acts ++ acts')
  end.

(** [tracking.track(element, tracker, opt_options)]. *)
Definition track (doc : Document) (element : Handle) (tracker : option Tracker)
    (opt_options : option Options) (en : Env) : Started :=
  match one doc element with
  | Throw e => Failed e en []
  | Ok None =>
      Failed (Err "Element not found, try a different element or selector.") en []
  | Ok (Some el) =>
      match tracker with
      | None =>
          Failed (Err "Tracker not specified, try `tracking.track(element, new tracking.FaceTracker())`.") en []
      | Some _ =>
          let name := toLowerCase (nodeName el) in
          if String.eqb name "canvas" then trackCanvas_ el tracker en
          else if String.eqb name "img" then trackImg_ el tracker en
          else if String.eqb name "video" then
            match (match opt_options with
                   | Some o => if opt_camera o then initUserMedia_ opt_options en else Ok []
                   | None => Ok []
                   end) with
            | Throw e => Failed e en []
            | Ok acts => prepend acts (trackVideo_ el tracker opt_options en)
            end
          else Failed (Err "Element not supported, try in a canvas, img, or video.") en []
      end
  end.

(** ** ObjectTracker *)

(** The double-quote character, for messages. *)
Definition dquote : string := String (ascii_of_nat 34) EmptyString.

(** [ObjectTracker.prototype.track]: with no classifiers it throws;
    otherwise it concatenates what [violaJones.detect] finds for each
    classifier and emits one [track] event.  [detect] stands for
    [violaJones.detect] with the tracker's scale and step settings. *)
Definition ObjectTracker_track {C} (classifiers : option (list C))
    (detect : Pixels -> Z -> Z -> C -> list Rect)
    (pixels : Pixels) (w h : Z) : TrackResult :=
  match classifiers with
  | None =>
      Raises (Err ("Object classifier not specified, try `new tracking.ObjectTracker("
                   ++ dquote ++ "face" ++ dquote ++ ")`.")%string)
  | Some cs =>
      Emits [ {| data := fold_left (fun results c => results ++ detect pixels w h c) cs [] |} ]
  end.

Definition ObjectTracker {C} (classifiers : option (list C))
    (detect : Pixels -> Z -> Z -> C -> list Rect) : Tracker :=
  {| track_fn := ObjectTracker_track classifiers detect |}.

(** ** What the theorems speak of *)

(** The trace of [task.emit('track', ev)]. *)
Definition heard (t : TrackerTask) (ev : TrackEvent) : list Action :=
  TaskEmit "track" (Some ev) :: map (fun id => Heard id "track" (Some ev)) (events_track t).

(** The trace of one listener of the tracker called with [ev]. *)
Definition listener_trace (t : TrackerTask) (ev : TrackEvent) (l : TrackerListener)
  : list Action :=
  match l with
  | Reemit _ => heard t ev
  | Subscriber id => [Direct id ev]
  end.

(** The trace of [tracker.emit('track', ev)]. *)
Definition emission (t : TrackerTask) (ls : list TrackerListener) (ev : TrackEvent)
  : list Action :=
  TrackerEmit ev :: flat_map (listener_trace t ev) ls.

(** An action by which a detection reaches the task's side: the task emits
    [track], or one of its external listeners hears it. *)
Definition is_relayed (a : Action) : bool :=
  match a with
  | TaskEmit ev (Some _) => String.eqb ev "track"
  | Heard _ ev (Some _) => String.eqb ev "track"
  | _ => false
  end.

Definition is_signal (name : string) (a : Action) : bool :=
  match a with
  | TaskEmit ev None => String.eqb ev name
  | _ => false
  end.

(** How many times the task emitted the lifecycle signal [name]. *)
Definition signals (name : string) (acts : list Action) : nat :=
  List.length (filter (is_signal name) acts).

Definition is_FrameRequested (a : Action) : bool :=
  match a with FrameRequested _ => true | _ => false end.

(** The relay is subscribed on the tracker exactly while the task runs: a
    running task has its stored closure, and only it, among the tracker's
    listeners; a task that does not run has no relay there. *)
Definition consistent (s : Session) : bool :=
  if running_ (task s) then
    match reemitTrackEvent_ (task s), relays (listeners (env s)) with
    | Some c, [c'] => Nat.eqb c' c
    | _, _ => false
    end
  else
    match relays (listeners (env s)) with
    | [] => true
    | _ => false
    end.

(** The operations of a session, for stating what holds after any sequence
    of them. *)
Inductive Call :=
| CallRun
| CallStop
| CallOnRun (l : RunListener)
| CallOnStop (l : StopListener)
| CallOnTrack (id : nat)
| CallSubscribe (id : nat)      (* [tracker.on('track', f)] by somebody else *)
| CallDetect (ev : TrackEvent)  (* the tracker emits [ev] *)
| CallFrame (f : Frame).        (* the window fires an animation frame *)

(** One operation; what it throws is caught by its caller and the session
    goes on from the state it left. *)
Definition call (c : Call) (s : Session) : Session :=
  match c with
  | CallRun => state_of (run s)
  | CallStop => state_of (stop s)
  | CallOnRun l => with_task (on_run l (task s)) s
  | CallOnStop l => with_task (on_stop l (task s)) s
  | CallOnTrack id => with_task (on_track id (task s)) s
  | CallSubscribe id => state_of (tracker_on (Subscriber id) s)
  | CallDetect ev => state_of (tracker_emit ev s)
  | CallFrame f => state_of (animationFrame f s)
  end.

Definition calls (cs : list Call) (s : Session) : Session :=
  fold_left (fun s c => call c s) cs s.

Definition is_CallRun (c : Call) : bool :=
  match c with CallRun => true | _ => false end.

(** A session around a task as its constructor leaves it. *)
Definition fresh_session (tr : Tracker) (subscribers : list nat) : Session :=
  {| env := {| listeners := map Subscriber subscribers; rafNext := 1;
               rafPending := []; nextClosure := 0;
               hasUserMedia := true |};
     task := {| tracker_ := tr; running_ := false; reemitTrackEvent_ := None;
                events_run := []; events_stop := []; events_track := [] |};
     loop := no_loop |}.

Definition ready (f : Frame) : bool := readyState f =? HAVE_ENOUGH_DATA.


(** ** Auxiliary notions of the proofs *)

(** A program keeps the invariant [P] of the state, and every action it logs
    has the property [Q]. *)
Definition hoare {A} (P : Session -> Prop) (Q : Action -> Prop) (m : M A) : Prop :=
  forall s, P s -> P (state_of (m s)) /\ Forall Q (trace_of (m s)).

Definition set_pending (p : list nat) (e : Env) : Env :=
  {| listeners := listeners e; rafNext := rafNext e; rafPending := p;
     nextClosure := nextClosure e; hasUserMedia := hasUserMedia e |}.

(** The state after [requestAnimationFrame_()]. *)
Definition registered (s : Session) : Session :=
  {| env := {| listeners := listeners (env s); rafNext := S (rafNext (env s));
               rafPending := rafPending (env s) ++ [rafNext (env s)];
               nextClosure := nextClosure (env s);
               hasUserMedia := hasUserMedia (env s) |};
     task := task s;
     loop := set_requestId (Some (rafNext (env s))) (loop s) |}.

(** Everything of the session that [emit('track')] reads, and the relay
    bookkeeping: the task, the tracker's listeners and the closure counter. *)
Definition core (s : Session) : TrackerTask * list TrackerListener * nat :=
  (task s, listeners (env s), nextClosure (env s)).

(** No listener of a lifecycle event emits a lifecycle signal of the
    task. *)
Definition no_signal (a : Action) : Prop := forall name, is_signal name a = false.

(** The trace of one listener of [stop]. *)
Definition stop_listener_trace (s : Session) (l : StopListener) : list Action :=
  match l with
  | StopExternal id => [Heard id "stop" None]
  | StopVideo =>
      match requestId (loop s) with
      | Some h => [FrameCancelled h]
      | None => []
      end
  | StopDetect ev => emission (task s) (listeners (env s)) ev
  end.

(** Equal but for the window's pending callbacks. *)
Definition same_but_pending (s s' : Session) : Prop :=
  task s' = task s /\ loop s' = loop s /\
  listeners (env s') = listeners (env s) /\
  rafNext (env s') = rafNext (env s) /\
  nextClosure (env s') = nextClosure (env s).

Definition set_running (b : bool) (t : TrackerTask) : TrackerTask :=
  {| tracker_ := tracker_ t; running_ := b; reemitTrackEvent_ := reemitTrackEvent_ t;
     events_run := events_run t; events_stop := events_stop t;
     events_track := events_track t |}.

(** The state in which [run] emits [run]: the flag is set and the new relay
    is subscribed. *)
Definition started (s : Session) : Session :=
  let c := nextClosure (env s) in
  {| env := {| listeners := listeners (env s) ++ [Reemit c]; rafNext := rafNext (env s);
               rafPending := rafPending (env s); nextClosure := S c;
               hasUserMedia := hasUserMedia (env s) |};
     task := {| tracker_ := tracker_ (task s); running_ := true;
                reemitTrackEvent_ := Some c;
                events_run := events_run (task s); events_stop := events_stop (task s);
                events_track := events_track (task s) |};
     loop := loop s |}.

(** The state in which [stop] emits [stop]: the flag is cleared and the
    relay is still subscribed. *)
Definition stopping (s : Session) : Session :=
  with_task (set_running false (task s)) s.

(** The session after a callback has advanced: the counter is [c], the
    canvas holds [px], and [rest] is still pending. *)
Definition ticked (c : Z) (px : Pixels) (rest : list nat) (s : Session) : Session :=
  {| env := set_pending rest (env s);
     task := task s;
     loop := {| freq := freq (loop s); count := c; requestId := requestId (loop s);
                width := width (loop s); height := height (loop s); canvas := px |} |}.

(** The canvas after [drawImage], whose exception is swallowed. *)
Definition canvas_after (f : Frame) (s : Session) : Pixels :=
  match drawn f with
  | Some px => px
  | None => canvas (loop s)
  end.


(** Every callback of the run registered the next one. *)
Definition reregistered (acts : list Action) : bool := existsb is_FrameRequested acts.

(** Every frame of the run found a callback pending and ran it: the run is
    [List.length fs] ticks of the loop. *)
Fixpoint all_fired (fs : list Frame) (s : Session) : bool :=
  match fs with
  | [] => true
  | f :: fs' =>
      match rafPending (env s) with
      | [] => false
      | _ :: _ => all_fired fs' (state_of (animationFrame f s))
      end
  end.

(** ** A concrete scene, for the examples *)

(** An [ObjectTracker] with an empty list of classifiers: every call of
    [track] emits one event with no rectangle. *)
Definition demo_tracker : Tracker :=
  ObjectTracker (C := unit) (Some []) (fun _ _ _ _ => []).

Definition demo_video : Element :=
  {| nodeName := "VIDEO"; el_width := 0; el_height := 0;
     offsetWidth := 2; offsetHeight := 1; el_src := EmptyString; el_pixels := [] |}.

Definition demo_env : Env :=
  {| listeners := [Subscriber 7]; rafNext := 1; rafPending := []; nextClosure := 0;
     hasUserMedia := true |}.

Definition demo_options (f : Z) : Options :=
  {| opt_freq := Some f; opt_camera := false; opt_audio := false |}.

Definition demo_event : TrackEvent :=
  {| data := [ {| rect_x := 1; rect_y := 2; rect_width := 3; rect_height := 4;
                  rect_total := 5 |} ] |}.

Definition session_of (st : Started) : Session :=
  match st with
  | Launched _ s _ => s
  | Failed _ _ _ => fresh_session demo_tracker []
  end.

(** [tracking.track(video, tracker, {freq: f})], then
    [task.on('track', listener5)]. *)
Definition demo_session (f : Z) : Session :=
  let s := session_of (track (fun _ => Ok None) (Node demo_video) (Some demo_tracker)
                         (Some (demo_options f)) demo_env) in
  with_task (on_track 5 (task s)) s.

(** Frames of the examples: the video is ready and is copied; the video is
    ready and the copy throws; the video is not ready. *)
Definition good_frame : Frame := {| readyState := 4; drawn := Some [1; 2; 3; 4; 5; 6; 7; 8] |}.

(** A video that is not laid out (hidden with [display: none], say): its
    [offsetWidth] and [offsetHeight] are 0, and so are the width and height
    of the canvas of its loop. *)
Definition hidden_video : Element :=
  {| nodeName := "VIDEO"; el_width := 0; el_height := 0;
     offsetWidth := 0; offsetHeight := 0; el_src := EmptyString; el_pixels := [] |}.

(** [tracking.track(hidden_video, tracker, {freq: f})]. *)
Definition hidden_session (f : Z) : Session :=
  session_of (track (fun _ => Ok None) (Node hidden_video) (Some demo_tracker)
                (Some (demo_options f)) demo_env).

(** The video is ready and [drawImage] returns; a canvas without area holds
    no pixel. *)
Definition empty_frame : Frame := {| readyState := 4; drawn := Some [] |}.

Definition demo_div : Element :=
  {| nodeName := "DIV"; el_width := 0; el_height := 0;
     offsetWidth := 10; offsetHeight := 10; el_src := EmptyString; el_pixels := [] |}.

(** A document in which only [#video] selects an element. *)
Definition demo_document : Document :=
  fun sel => if String.eqb sel "#video" then Ok (Some demo_video) else Ok None.

(** A window whose navigator has [getUserMedia] under none of its names. *)
Definition old_navigator : Env :=
  {| listeners := [Subscriber 7]; rafNext := 1; rafPending := []; nextClosure := 0;
     hasUserMedia := false |}.

(** A canvas element that is 0 pixels wide. *)
Definition hidden_canvas : Element :=
  {| nodeName := "CANVAS"; el_width := 0; el_height := 150;
     offsetWidth := 0; offsetHeight := 150; el_src := EmptyString; el_pixels := [] |}.

(** The options object [{}]. *)
Definition no_options : Options :=
  {| opt_freq := None; opt_camera := false; opt_audio := false |}.

(** ** Further notions: subscriptions and the video loop *)

Definition is_Subscriber (l : TrackerListener) : bool :=
  match l with Subscriber _ => true | Reemit _ => false end.

Definition is_StopVideo (l : StopListener) : bool :=
  match l with StopVideo => true | _ => false end.

(** A listener of [run] that the library itself registers (not a callback of
    the user). *)
Definition is_path_listener (l : RunListener) : bool :=
  match l with RunExternal _ => false | _ => true end.

(** The task of a video session: of the library's listeners of [run] it has
    the one of [trackVideo_] and no other, and among its listeners of
    [stop] is the one of [trackVideo_]. *)
Definition video_hooks (t : TrackerTask) : bool :=
  match filter is_path_listener (events_run t) with
  | [RunVideo] => existsb is_StopVideo (events_stop t)
  | _ => false
  end.

(** One callback is in flight exactly while the task runs: a running task
    has one pending callback, whose handle is in [requestId]; a task that
    does not run has none. *)
Definition loop_in_flight (s : Session) : bool :=
  if running_ (task s) then
    match rafPending (env s), requestId (loop s) with
    | [h], Some h' => Nat.eqb h h'
    | _, _ => false
    end
  else
    match rafPending (env s) with
    | [] => true
    | _ => false
    end.


(** The pending callbacks after [window.cancelAnimationFrame(id)]. *)
Definition cancelled (id : option nat) (pending : list nat) : list nat :=
  match id with
  | Some h => List.remove Nat.eq_dec h pending
  | None => pending
  end.

(** An [ObjectTracker] constructed without classifiers: [track] throws. *)
Definition broken_tracker : Tracker :=
  ObjectTracker (C := unit) None (fun _ _ _ _ => []).





(** ** ObjectTracker: the constructor *)

(** One classifier given to the constructor: the name of a classifier of
    [violaJones.classifiers], or the data of one (a typed array of
    numbers, which is an object and so truthy). *)
Inductive ClassifierArg (C : Type) :=
| ByName (name : string)
| ByData (c : C).
Arguments ByName {C} name.
Arguments ByData {C} c.

(** The argument [opt_classifiers]: absent, one classifier, or an array of
    classifiers. *)
Inductive ClassifiersArg (C : Type) :=
| NoClassifiers
| OneClassifier (a : ClassifierArg C)
| ManyClassifiers (l : list (ClassifierArg C)).
Arguments NoClassifiers {C}.
Arguments OneClassifier {C} a.
Arguments ManyClassifiers {C} l.

(** What the constructor hands to [setClassifiers]: the argument itself when
    it is falsy ([undefined], or the empty string), else the array of the
    classifiers' data. *)
Inductive StoredClassifiers (C : Type) :=
| StoredUndefined
| StoredEmptyString
| StoredArray (cs : list C).
Arguments StoredUndefined {C}.
Arguments StoredEmptyString {C}.
Arguments StoredArray {C} cs.

Definition msg_not_valid : string :=
  ("Object classifier not valid, try `new tracking.ObjectTracker("
     ++ dquote ++ "face" ++ dquote ++ ")`.")%string.

Definition msg_not_specified : string :=
  ("Object classifier not specified, try `new tracking.ObjectTracker("
     ++ dquote ++ "face" ++ dquote ++ ")`.")%string.

(** [opt_classifiers[i]] after the lookup of a name:
    [this.violaJones.classifiers[classifier]], [undefined] for a name that
    the table does not have. *)
Definition lookup_classifier {C} (registry : string -> option C) (a : ClassifierArg C)
  : option C :=
  match a with
  | ByName name => registry name
  | ByData c => Some c
  end.

(** The [forEach] of the constructor: names are replaced by the data of the
    table, and the first entry that is then falsy makes it throw. *)
Fixpoint resolve_classifiers {C} (registry : string -> option C)
    (l : list (ClassifierArg C)) : Result (list C) :=
  match l with
  | [] => Ok []
  | a :: l' =>
      match lookup_classifier registry a with
      | None => Throw (Err msg_not_valid)
      | Some c =>
          match resolve_classifiers registry l' with
          | Ok cs => Ok (c :: cs)
          | Throw e => Throw e
          end
      end
  end.

(** [new ObjectTracker(opt_classifiers)], as far as the classifiers go;
    [registry] is the table [violaJones.classifiers], which is not among the
    sources. *)
Definition new_ObjectTracker {C} (registry : string -> option C)
    (opt_classifiers : ClassifiersArg C) : Result (StoredClassifiers C) :=
  match opt_classifiers with
  | NoClassifiers => Ok StoredUndefined
  | OneClassifier (ByName EmptyString) => Ok StoredEmptyString
  | OneClassifier a =>
      match resolve_classifiers registry [a] with
      | Ok cs => Ok (StoredArray cs)
      | Throw e => Throw e
      end
  | ManyClassifiers l =>
      match resolve_classifiers registry l with
      | Ok cs => Ok (StoredArray cs)
      | Throw e => Throw e
      end
  end.

(** [getClassifiers()] as [track] tests it: [!classifiers] holds of
    [undefined] and of the empty string. *)
Definition getClassifiers {C} (st : StoredClassifiers C) : option (list C) :=
  match st with
  | StoredArray cs => Some cs
  | StoredUndefined | StoredEmptyString => None
  end.

(** A table with the classifiers [face] and [eye], for the examples. *)
Definition demo_registry : string -> option nat :=
  fun name =>
    if String.eqb name "face" then Some 1%nat
    else if String.eqb name "eye" then Some 2%nat
    else None.

(** ** TrackerTask: the accessors of the tracker *)

(** [getTracker()]. *)
Definition getTracker (s : Session) : Tracker := tracker_ (task s).

(** [setTracker(tracker)]: [this.tracker_ = tracker].  A tracker object is
    its [track] function together with the list of its listeners, and the
    session holds the listeners of the tracker that [tracker_] refers to; so
    the assignment brings in the listeners of the new tracker and hands back
    those of the former one, which the assignment has not touched. *)
Definition setTracker (tracker : Tracker) (its_listeners : list TrackerListener)
    (s : Session) : Session * list TrackerListener :=
  ({| env := set_listeners its_listeners (env s);
      task := {| tracker_ := tracker; running_ := running_ (task s);
                 reemitTrackEvent_ := reemitTrackEvent_ (task s);
                 events_run := events_run (task s);
                 events_stop := events_stop (task s);
                 events_track := events_track (task s) |};
      loop := loop s |},
   listeners (env s)).

(** [emit('track', ev)] on a tracker that the task no longer refers to, and
    whose listeners are [ls]. *)
Definition detached_emit (ls : list TrackerListener) (ev : TrackEvent) : M unit :=
  log (TrackerEmit ev) ;;
  EventEmitter.emit (call_tracker_listener ev) ls.



(** * Lemmas *)

Unset Implicit Arguments.

Section Monad.

Context {A : Type}.

Lemma bind_Ok {B} (m : M A) (k : A -> M B) s a s1 t1 :
  m s = (Ok a, s1, t1) ->
  bind m k s = (result_of (k a s1), state_of (k a s1), t1 ++ trace_of (k a s1)).
Proof.
  intros H. unfold bind. rewrite H.
  destruct (k a s1) as [[r s2] t2]. reflexivity.
Qed.

Lemma bind_get (k : Session -> M A) s : bind get k s = k s s.
Proof. unfold bind, get. destruct (k s s) as [[r s2] t2]. reflexivity. Qed.

Lemma bind_modify (f : Session -> Session) (k : unit -> M A) s :
  bind (modify f) k s = k tt (f s).
Proof. unfold bind, modify. destruct (k tt (f s)) as [[r s2] t2]. reflexivity. Qed.

Lemma bind_log (a : Action) (k : unit -> M A) s :
  bind (log a) k s = (result_of (k tt s), state_of (k tt s), a :: trace_of (k tt s)).
Proof. unfold bind, log. destruct (k tt s) as [[r s2] t2]. reflexivity. Qed.

Lemma bind_ret {B} (b : B) (k : B -> M A) s : bind (ret b) k s = k b s.
Proof. unfold bind, ret. destruct (k b s) as [[r s2] t2]. reflexivity. Qed.

End Monad.

(** A loop of [log]s changes nothing and logs in order. *)
Lemma forM_log {A} (g : A -> Action) (l : list A) s :
  forM (fun x => log (g x)) l s = (Ok tt, s, map g l).
Proof.
  induction l as [|x l IH]; [reflexivity|].
  cbn [forM map]. rewrite bind_log, IH. reflexivity.
Qed.

Lemma task_emit_track_eq ev s :
  task_emit_track ev s = (Ok tt, s, heard (task s) ev).
Proof.
  unfold task_emit_track, EventEmitter.emit.
  rewrite bind_log, bind_get, forM_log. reflexivity.
Qed.

Lemma call_tracker_listener_eq ev l s :
  call_tracker_listener ev l s = (Ok tt, s, listener_trace (task s) ev l).
Proof. destruct l; cbn; [apply task_emit_track_eq | reflexivity]. Qed.

(** A loop of calls that leave the state alone and never throw. *)
Lemma forM_silent {A} (f : A -> M unit) (g : Session -> A -> list Action) (l : list A) s :
  (forall x s, f x s = (Ok tt, s, g s x)) ->
  forM f l s = (Ok tt, s, flat_map (g s) l).
Proof.
  intros Hf. induction l as [|x l IH]; [reflexivity|].
  cbn [forM flat_map]. erewrite bind_Ok by apply Hf. rewrite IH. reflexivity.
Qed.

Lemma tracker_emit_eq ev s :
  tracker_emit ev s = (Ok tt, s, emission (task s) (listeners (env s)) ev).
Proof.
  unfold tracker_emit, EventEmitter.emit. rewrite bind_log, bind_get.
  rewrite (forM_silent _ (fun s => listener_trace (task s) ev)).
  - reflexivity.
  - intros. apply call_tracker_listener_eq.
Qed.

Lemma forM_tracker_emit_eq evs s :
  forM tracker_emit evs s
  = (Ok tt, s, flat_map (emission (task s) (listeners (env s))) evs).
Proof.
  apply (forM_silent _ (fun s => emission (task s) (listeners (env s)))).
  intros. apply tracker_emit_eq.
Qed.

Lemma trackCanvasInternal_eq px w h s :
  trackCanvasInternal_ px w h s
  = if zero_sized w h then (Throw (DOMException "IndexSizeError"), s, [])
    else
      match track_fn (tracker_ (task s)) px w h with
      | Emits evs =>
          (Ok tt, s, TrackCall px w h :: flat_map (emission (task s) (listeners (env s))) evs)
      | Raises e => (Throw e, s, [TrackCall px w h])
      end.
Proof.
  unfold trackCanvasInternal_, getImageData. rewrite bind_get.
  destruct (zero_sized w h); [reflexivity|]. rewrite bind_log.
  destruct (track_fn (tracker_ (task s)) px w h) as [evs|e].
  - rewrite forM_tracker_emit_eq. reflexivity.
  - reflexivity.
Qed.


(** ** A small program logic *)

Section Hoare.

Variable P : Session -> Prop.
Variable Q : Action -> Prop.

Lemma hoare_ret {A} (a : A) : hoare P Q (ret a).
Proof. intros s H. split; [exact H | constructor]. Qed.

Lemma hoare_throw {A} e : hoare P Q (@throw A e).
Proof. intros s H. split; [exact H | constructor]. Qed.

Lemma hoare_log a : Q a -> hoare P Q (log a).
Proof. intros Ha s H. split; [exact H | repeat constructor; exact Ha]. Qed.

Lemma hoare_modify f : (forall s, P s -> P (f s)) -> hoare P Q (modify f).
Proof. intros Hf s H. split; [apply Hf, H | constructor]. Qed.

Lemma hoare_bind {A B} (m : M A) (k : A -> M B) :
  hoare P Q m -> (forall a, hoare P Q (k a)) -> hoare P Q (bind m k).
Proof.
  intros Hm Hk s H. destruct (Hm s H) as [H1 T1]. unfold bind.
  destruct (m s) as [[[a|e] s1] t1]; cbn in *.
  - destruct (Hk a s1 H1) as [H2 T2].
    destruct (k a s1) as [[r s2] t2]; cbn in *.
    split; [exact H2 | apply Forall_app; split; assumption].
  - split; assumption.
Qed.

Lemma hoare_get {A} (k : Session -> M A) :
  (forall v, P v -> hoare P Q (k v)) -> hoare P Q (bind get k).
Proof. intros Hk s H. rewrite bind_get. apply Hk; exact H. Qed.

Lemma hoare_forM {A} (f : A -> M unit) (l : list A) :
  (forall x, hoare P Q (f x)) -> hoare P Q (forM f l).
Proof.
  intros Hf. induction l as [|x l IH]; cbn [forM].
  - apply hoare_ret.
  - apply hoare_bind; [apply Hf | intros _; exact IH].
Qed.

End Hoare.

(** ** The window and the loop's re-registration *)



Lemma requestAnimationFrame_eq s :
  requestAnimationFrame_ s = (Ok tt, registered s, [FrameRequested (rafNext (env s))]).
Proof. reflexivity. Qed.



Lemma no_signal_emission t ls ev : Forall no_signal (emission t ls ev).
Proof.
  unfold emission. constructor; [intro; reflexivity|].
  induction ls as [|l ls IH]; cbn [flat_map]; [constructor|].
  apply Forall_app; split; [|exact IH].
  destruct l; cbn [listener_trace heard].
  - constructor; [intro; reflexivity|].
    induction (events_track t); cbn [map]; constructor; [intro; reflexivity | assumption].
  - repeat constructor.
Qed.

Lemma hoare_trackCanvasInternal_ c px w h :
  hoare (fun s => core s = c) no_signal (trackCanvasInternal_ px w h).
Proof.
  intros s H. rewrite trackCanvasInternal_eq.
  destruct (zero_sized w h); [split; [exact H | constructor]|].
  destruct (track_fn (tracker_ (task s)) px w h) as [evs|e]; cbn.
  - split; [exact H|]. constructor; [intro; reflexivity|].
    induction evs as [|ev evs IH]; cbn [flat_map]; [constructor|].
    apply Forall_app; split; [apply no_signal_emission | exact IH].
  - split; [exact H|]. repeat constructor.
Qed.

Lemma hoare_call_run_listener c l :
  hoare (fun s => core s = c) no_signal (call_run_listener l).
Proof.
  destruct l; cbn [call_run_listener].
  - apply hoare_log. intro; reflexivity.
  - apply hoare_trackCanvasInternal_.
  - apply hoare_log. intro; reflexivity.
  - intros s H. rewrite requestAnimationFrame_eq. cbn.
    split; [exact H | repeat constructor].
Qed.

(** [emit('run')] logs the signal once; its listeners leave the task and the
    tracker's listeners alone. *)
Lemma emit_run_spec s :
  core (state_of (emit_run s)) = core s /\
  exists rest, trace_of (emit_run s) = TaskEmit "run" None :: rest /\
               Forall no_signal rest.
Proof.
  unfold emit_run, EventEmitter.emit. rewrite bind_log, bind_get.
  cbn [state_of trace_of fst snd].
  assert (HH : hoare (fun s' => core s' = core s) no_signal
                 (forM call_run_listener (events_run (task s))))
    by (apply hoare_forM; intro; apply hoare_call_run_listener).
  destruct (HH s eq_refl) as [H T].
  split; [exact H|]. eexists; split; [reflexivity | exact T].
Qed.

(** ** [emit('stop')] *)



Lemma same_but_pending_refl s : same_but_pending s s.
Proof. repeat split. Qed.

Lemma stop_listener_trace_ext s s' l :
  same_but_pending s s' -> stop_listener_trace s' l = stop_listener_trace s l.
Proof.
  intros (Ht & Hl & Hls & _). destruct l; cbn; rewrite ?Ht, ?Hl, ?Hls; reflexivity.
Qed.

Lemma call_stop_listener_eq l s :
  exists s', call_stop_listener l s = (Ok tt, s', stop_listener_trace s l) /\
             same_but_pending s s'.
Proof.
  destruct l as [id| |ev]; cbn [call_stop_listener stop_listener_trace].
  - exists s. split; [reflexivity | apply same_but_pending_refl].
  - rewrite bind_get. destruct (requestId (loop s)) as [h|].
    + eexists. split; [reflexivity | repeat split].
    + exists s. split; [reflexivity | apply same_but_pending_refl].
  - exists s. split; [apply tracker_emit_eq | apply same_but_pending_refl].
Qed.

Lemma forM_call_stop_listener ls : forall s,
  exists s', forM call_stop_listener ls s
             = (Ok tt, s', flat_map (stop_listener_trace s) ls) /\
             same_but_pending s s'.
Proof.
  induction ls as [|l ls IH]; intros s; cbn [forM flat_map].
  - exists s. split; [reflexivity | apply same_but_pending_refl].
  - destruct (call_stop_listener_eq l s) as (s1 & E1 & S1).
    destruct (IH s1) as (s2 & E2 & S2).
    exists s2. split.
    + erewrite bind_Ok by exact E1. rewrite E2. cbn.
      f_equal. f_equal. apply flat_map_ext. intros a.
      apply stop_listener_trace_ext; exact S1.
    + destruct S1 as (?&?&?&?&?), S2 as (?&?&?&?&?).
      repeat split; congruence.
Qed.

(** [emit('stop')] never throws; it logs the signal and then what its
    listeners do, and changes only the window's pending callbacks. *)
Lemma emit_stop_eq s :
  exists s', emit_stop s
             = (Ok tt, s',
                TaskEmit "stop" None :: flat_map (stop_listener_trace s) (events_stop (task s)))
             /\ same_but_pending s s'.
Proof.
  unfold emit_stop, EventEmitter.emit. rewrite bind_log, bind_get.
  destruct (forM_call_stop_listener (events_stop (task s)) s) as (s' & E & S).
  exists s'. rewrite E. split; [reflexivity | exact S].
Qed.

(** ** [run] and [stop] *)

Lemma bind_step {A B} (m : M A) (k : A -> M B) s a s1 :
  m s = (Ok a, s1, []) -> bind m k s = k a s1.
Proof.
  intros H. unfold bind. rewrite H. destruct (k a s1) as [[r s2] t2]. reflexivity.
Qed.

Lemma run_running s :
  running_ (task s) = true -> run s = (Ok RetUndefined, s, []).
Proof.
  intros H. unfold run. erewrite bind_step by reflexivity. rewrite H. reflexivity.
Qed.

Lemma run_idle s :
  running_ (task s) = false ->
  run s = bind emit_run (fun _ => ret RetThis) (started s).
Proof.
  intros H. unfold run. erewrite bind_step by reflexivity. rewrite H.
  do 3 (erewrite bind_step by reflexivity). reflexivity.
Qed.

Lemma stop_idle s :
  running_ (task s) = false -> stop s = (Ok RetUndefined, s, []).
Proof.
  intros H. unfold stop. erewrite bind_step by reflexivity. rewrite H. reflexivity.
Qed.

Lemma stop_running s :
  running_ (task s) = true ->
  stop s = bind emit_stop
             (fun _ => s' <- get ;;
                       tracker_removeListener (reemitTrackEvent_ (task s')) ;;
                       ret RetThis)
             (stopping s).
Proof.
  intros H. unfold stop. erewrite bind_step by reflexivity. rewrite H. cbn [negb].
  erewrite bind_step by reflexivity. reflexivity.
Qed.

(** ** One animation frame *)

Lemma frame_idle f s :
  rafPending (env s) = [] -> animationFrame f s = (Ok tt, s, []).
Proof.
  intros H. unfold animationFrame. rewrite bind_get, H. reflexivity.
Qed.

Lemma frame_skip f s h rest :
  rafPending (env s) = h :: rest ->
  divides_tick (count (loop s) + 1) (freq (loop s)) = false ->
  animationFrame f s
  = (Ok tt, registered (ticked (count (loop s) + 1) (canvas (loop s)) rest s),
     [FrameRequested (rafNext (env s))]).
Proof.
  intros Hp Hd. unfold animationFrame. rewrite bind_get, Hp, bind_modify.
  unfold tick. rewrite bind_get, bind_modify. cbn [loop with_env with_loop].
  rewrite Hd. rewrite bind_ret. reflexivity.
Qed.

Lemma frame_not_ready f s h rest :
  rafPending (env s) = h :: rest ->
  divides_tick (count (loop s) + 1) (freq (loop s)) = true ->
  ready f = false ->
  animationFrame f s
  = (Ok tt, registered (ticked 0 (canvas (loop s)) rest s),
     [FrameRequested (rafNext (env s))]).
Proof.
  intros Hp Hd Hr. unfold animationFrame. rewrite bind_get, Hp, bind_modify.
  unfold tick. rewrite bind_get, bind_modify. cbn [loop with_env with_loop].
  rewrite Hd. unfold ready in Hr.
  erewrite bind_step; cycle 1.
  { rewrite bind_get, bind_modify, Hr. reflexivity. }
  reflexivity.
Qed.

(** A tick that reaches the extraction: [getImageData] throws on a canvas
    without width or height; else the tracker is called. *)
Lemma frame_attempt f s h rest :
  rafPending (env s) = h :: rest ->
  divides_tick (count (loop s) + 1) (freq (loop s)) = true ->
  ready f = true ->
  animationFrame f s
  = if zero_sized (width (loop s)) (height (loop s)) then
      (Throw (DOMException "IndexSizeError"), ticked 0 (canvas_after f s) rest s, [])
    else
      match track_fn (tracker_ (task s)) (canvas_after f s) (width (loop s))
              (height (loop s)) with
      | Emits evs =>
          (Ok tt, registered (ticked 0 (canvas_after f s) rest s),
           TrackCall (canvas_after f s) (width (loop s)) (height (loop s))
             :: flat_map (emission (task s) (listeners (env s))) evs
             ++ [FrameRequested (rafNext (env s))])
      | Raises e =>
          (Throw e, ticked 0 (canvas_after f s) rest s,
           [TrackCall (canvas_after f s) (width (loop s)) (height (loop s))])
      end.
Proof.
  intros Hp Hd Hr. unfold animationFrame. rewrite bind_get, Hp, bind_modify.
  unfold tick. rewrite bind_get, bind_modify. cbn [loop with_env with_loop].
  rewrite Hd. unfold ready in Hr.
  set (s3 := ticked 0 (canvas_after f s) rest s).
  match goal with
  | |- bind ?m _ ?s0 = _ =>
      assert (E : m s0 = trackCanvasInternal_ (canvas_after f s) (width (loop s))
                           (height (loop s)) s3)
  end.
  { rewrite bind_get, bind_modify, Hr.
    erewrite (bind_step (drawImage_caught f)) with (a := tt) (s1 := s3).
    - rewrite bind_get. reflexivity.
    - unfold drawImage_caught, s3, canvas_after, ticked.
      destruct (drawn f); reflexivity. }
  unfold bind at 1. rewrite E, trackCanvasInternal_eq.
  destruct (zero_sized (width (loop s)) (height (loop s))); [reflexivity|].
  destruct (track_fn _ _ _ _) as [evs|e]; reflexivity.
Qed.


(** A tick that reaches the extraction on a canvas without width or height:
    [getImageData] throws, the tracker is not called and no callback is
    registered. *)
Lemma frame_zero_sized f s h rest :
  rafPending (env s) = h :: rest ->
  divides_tick (count (loop s) + 1) (freq (loop s)) = true ->
  ready f = true ->
  zero_sized (width (loop s)) (height (loop s)) = true ->
  animationFrame f s
  = (Throw (DOMException "IndexSizeError"), ticked 0 (canvas_after f s) rest s, []).
Proof.
  intros Hp Hd Hr Hz. rewrite (frame_attempt _ _ _ _ Hp Hd Hr), Hz. reflexivity.
Qed.


(** ** The relay bookkeeping *)

Lemma relays_app ls ls' : relays (ls ++ ls') = relays ls ++ relays ls'.
Proof.
  induction ls as [|[c|i] ls IH]; cbn [relays app]; [reflexivity | | exact IH].
  rewrite IH. reflexivity.
Qed.

Lemma relays_Subscribers ids : relays (map Subscriber ids) = [].
Proof. induction ids as [|i ids IH]; [reflexivity | exact IH]. Qed.

(** Removing the only relay leaves none. *)
Lemma relays_removeListener ls c :
  relays ls = [c] -> relays (EventEmitter.removeListener ls (Reemit c)) = [].
Proof.
  induction ls as [|[d|i] ls IH]; cbn [relays EventEmitter.removeListener]; intros H.
  - discriminate.
  - injection H as -> H. cbn [TrackerListener_eqb]. rewrite Nat.eqb_refl. exact H.
  - cbn [TrackerListener_eqb relays]. apply IH, H.
Qed.

(** Without a relay, what the tracker emits stays on the tracker's side. *)
Lemma emission_not_relayed t ls ev :
  relays ls = [] -> Forall (fun a => is_relayed a = false) (emission t ls ev).
Proof.
  intros H. unfold emission. constructor; [reflexivity|].
  induction ls as [|[c|i] ls IH]; cbn [flat_map relays] in *.
  - constructor.
  - discriminate.
  - constructor; [reflexivity | apply IH, H].
Qed.

(** With a relay, every external listener of the task hears it. *)
Lemma emission_relayed t ls ev c :
  In c (relays ls) -> incl (heard t ev) (emission t ls ev).
Proof.
  intros H a Ha. unfold emission. right. apply in_flat_map.
  induction ls as [|[d|i] ls IH]; cbn [relays] in H.
  - destruct H.
  - exists (Reemit d). split; [left; reflexivity | exact Ha].
  - destruct (IH H) as (l & Hl & Hin). exists l. split; [right; exact Hl | exact Hin].
Qed.

Lemma consistent_running s :
  consistent s = true -> running_ (task s) = true ->
  exists c, reemitTrackEvent_ (task s) = Some c /\ relays (listeners (env s)) = [c].
Proof.
  unfold consistent. intros H R. rewrite R in H.
  destruct (reemitTrackEvent_ (task s)) as [c|]; [|discriminate].
  destruct (relays (listeners (env s))) as [|c' [|]]; try discriminate.
  apply Nat.eqb_eq in H. subst c'. exists c. split; reflexivity.
Qed.

Lemma consistent_idle s :
  consistent s = true -> running_ (task s) = false -> relays (listeners (env s)) = [].
Proof.
  unfold consistent. intros H R. rewrite R in H.
  destruct (relays (listeners (env s))); [reflexivity | discriminate].
Qed.

Lemma consistent_core s s' : core s = core s' -> consistent s = consistent s'.
Proof.
  unfold core, consistent. intros H. injection H as Ht Hl _. rewrite Ht, Hl. reflexivity.
Qed.

(** What [run] does to an idle task. *)
Lemma run_spec s :
  running_ (task s) = false ->
  core (state_of (run s)) = core (started s) /\
  (result_of (run s) = Ok RetThis \/ exists e, result_of (run s) = Throw e) /\
  exists rest, trace_of (run s) = TaskEmit "run" None :: rest /\ Forall no_signal rest.
Proof.
  intros H. rewrite (run_idle _ H).
  destruct (emit_run_spec (started s)) as (Hc & rest & Ht & Hn).
  unfold bind. destruct (emit_run (started s)) as [[[[]|e] s2] t2]; cbn in *.
  - split; [exact Hc|]. split; [left; reflexivity|].
    exists rest. rewrite app_nil_r. split; assumption.
  - split; [exact Hc|]. split; [right; eexists; reflexivity|].
    exists rest. split; assumption.
Qed.

(** What [stop] does to a running task: it returns, having emitted [stop]
    to its listeners while the relay was still subscribed, and then
    unsubscribed the stored relay. *)
Lemma stop_spec s :
  running_ (task s) = true ->
  exists s',
    stop s = (Ok RetThis, s',
              TaskEmit "stop" None
                :: flat_map (stop_listener_trace (stopping s)) (events_stop (task s))) /\
    task s' = set_running false (task s) /\
    loop s' = loop s /\
    nextClosure (env s') = nextClosure (env s) /\
    listeners (env s')
    = match reemitTrackEvent_ (task s) with
      | Some c => EventEmitter.removeListener (listeners (env s)) (Reemit c)
      | None => listeners (env s)
      end.
Proof.
  intros H. rewrite (stop_running _ H).
  destruct (emit_stop_eq (stopping s)) as (s1 & E & Ht & Hl & Hls & Hn & Hc).
  erewrite bind_Ok by exact E. rewrite bind_get, Ht. cbn [stopping with_task task set_running reemitTrackEvent_].
  destruct (reemitTrackEvent_ (task s)) as [c|] eqn:Er; cbn [tracker_removeListener].
  - eexists. split.
    + erewrite bind_step by (rewrite bind_get; reflexivity).
      cbn. rewrite app_nil_r. reflexivity.
    + cbn. rewrite Hls. repeat split; assumption.
  - exists s1. split.
    + rewrite bind_ret. cbn. rewrite app_nil_r. reflexivity.
    + repeat split; assumption.
Qed.

Lemma signals_no_signal name acts : Forall no_signal acts -> signals name acts = 0%nat.
Proof.
  unfold signals. induction 1 as [|a acts Ha _ IH]; [reflexivity|].
  cbn [filter]. rewrite (Ha name). exact IH.
Qed.

Lemma frame_core f s : core (state_of (animationFrame f s)) = core s.
Proof.
  destruct (rafPending (env s)) as [|h rest] eqn:Hp.
  - rewrite (frame_idle _ _ Hp). reflexivity.
  - destruct (divides_tick (count (loop s) + 1) (freq (loop s))) eqn:Hd.
    + destruct (ready f) eqn:Hr.
      * rewrite (frame_attempt _ _ _ _ Hp Hd Hr).
        destruct (zero_sized _ _); [reflexivity|].
        destruct (track_fn _ _ _ _); reflexivity.
      * rewrite (frame_not_ready _ _ _ _ Hp Hd Hr). reflexivity.
    + rewrite (frame_skip _ _ _ _ Hp Hd). reflexivity.
Qed.

Lemma consistent_started s :
  consistent s = true -> running_ (task s) = false -> consistent (started s) = true.
Proof.
  intros H R. unfold consistent, started. cbn.
  rewrite relays_app, (consistent_idle _ H R). cbn.
  apply Nat.eqb_refl.
Qed.

(** Every operation keeps the relay bookkeeping consistent. *)
Lemma call_consistent c s : consistent s = true -> consistent (call c s) = true.
Proof.
  intros H. destruct c; cbn [call]; try exact H.
  - destruct (running_ (task s)) eqn:R.
    + rewrite (run_running _ R). exact H.
    + destruct (run_spec _ R) as (Hc & _). rewrite (consistent_core _ _ Hc).
      apply consistent_started; assumption.
  - destruct (running_ (task s)) eqn:R.
    + destruct (stop_spec _ R) as (s' & E & Ht & _ & _ & Hl).
      destruct (consistent_running _ H R) as (c & Er & Hr).
      rewrite E. cbn [state_of fst snd]. unfold consistent.
      rewrite Ht, Hl, Er. cbn. rewrite (relays_removeListener _ _ Hr). reflexivity.
    + rewrite (stop_idle _ R). exact H.
  - unfold consistent in *. cbn. unfold EventEmitter.on.
    rewrite relays_app. cbn. rewrite app_nil_r. exact H.
  - rewrite tracker_emit_eq. exact H.
  - rewrite (consistent_core _ _ (frame_core f s)). exact H.
Qed.

Lemma calls_consistent cs : forall s,
  consistent s = true -> consistent (calls cs s) = true.
Proof.
  induction cs as [|c cs IH]; intros s H; [exact H|].
  apply IH, call_consistent, H.
Qed.

(** The flag and the stored handle after one operation. *)
Lemma call_flags c s :
  (running_ (task (call c s)), reemitTrackEvent_ (task (call c s)))
  = match c with
    | CallRun =>
        if running_ (task s) then (true, reemitTrackEvent_ (task s))
        else (true, Some (nextClosure (env s)))
    | CallStop => (false, reemitTrackEvent_ (task s))
    | _ => (running_ (task s), reemitTrackEvent_ (task s))
    end.
Proof.
  destruct c; cbn [call]; try reflexivity.
  - destruct (running_ (task s)) eqn:R.
    + rewrite (run_running _ R). cbn. rewrite R. reflexivity.
    + destruct (run_spec _ R) as (Hc & _). injection Hc as -> _ _. reflexivity.
  - destruct (running_ (task s)) eqn:R.
    + destruct (stop_spec _ R) as (s' & E & Ht & _). rewrite E. cbn [state_of fst snd].
      rewrite Ht. reflexivity.
    + rewrite (stop_idle _ R). cbn. rewrite R. reflexivity.
  - rewrite tracker_emit_eq. reflexivity.
  - pose proof (frame_core f s) as Hc. injection Hc as -> _ _. reflexivity.
Qed.

Lemma calls_handle cs : forall s,
  (running_ (task s) = true -> reemitTrackEvent_ (task s) <> None) ->
  (running_ (task (calls cs s)) = true -> reemitTrackEvent_ (task (calls cs s)) <> None) /\
  (reemitTrackEvent_ (task (calls cs s)) <> None <->
   reemitTrackEvent_ (task s) <> None \/ existsb is_CallRun cs = true).
Proof.
  induction cs as [|c cs IH]; intros s Hs; cbn [calls fold_left existsb].
  - split; [exact Hs|]. split; [tauto | intros [H|H]; [exact H | discriminate]].
  - pose proof (call_flags c s) as F.
    assert (Hs' : running_ (task (call c s)) = true ->
                  reemitTrackEvent_ (task (call c s)) <> None).
    { destruct c; cbn [call] in *; try exact Hs; try (injection F as -> ->; exact Hs).
      - destruct (running_ (task s)); injection F as _ ->; intros _;
          [apply Hs; reflexivity | discriminate].
      - injection F as -> _. discriminate. }
    destruct (IH _ Hs') as (I1 & I2). split; [exact I1|].
    rewrite I2. clear I1 I2 IH Hs'.
    destruct c; cbn [call is_CallRun orb] in *; try tauto;
      try (injection F as _ ->; tauto).
    destruct (running_ (task s)) eqn:R; injection F as _ ->.
    + split; [auto | intros _; left; auto].
    + split; [auto | intros _; left; discriminate].
Qed.

Lemma calls_idle cs : forall s,
  running_ (task s) = false -> existsb is_CallRun cs = false ->
  running_ (task (calls cs s)) = false.
Proof.
  induction cs as [|c cs IH]; intros s R H; [exact R|].
  cbn [existsb] in H. apply orb_false_elim in H as [Hc Hcs].
  cbn [calls fold_left]. apply IH; [|exact Hcs].
  pose proof (call_flags c s) as F.
  destruct c; cbn [call] in *; try exact R; try discriminate;
    try (injection F as -> _; try exact R; reflexivity).
Qed.

(** * The task's lifecycle *)

(** C3: once [stop()] has returned, no detection that the tracker emits
    afterwards reaches the task's side (the task does not emit [track] and
    none of its external listeners is called), also after further operations
    other than [run()]; and on a running task [stop()] emits the [stop]
    signal first and unsubscribes the relay last, so that a detection the
    tracker emits while the signal is being delivered is still relayed to
    every external listener. *)
Theorem stop_ends_relay (s : Session) :
  consistent s = true ->
  exists r s' acts,
    stop s = (Ok r, s', acts) /\
    running_ (task s') = false /\
    relays (listeners (env s')) = [] /\
    (forall cs evs,
       existsb is_CallRun cs = false ->
       Forall (fun a => is_relayed a = false)
              (trace_of (forM tracker_emit evs (calls cs s')))) /\
    (running_ (task s) = true ->
     exists rest,
       acts = TaskEmit "stop" None :: rest /\
       forall ev, In (StopDetect ev) (events_stop (task s)) ->
                  incl (heard (task s) ev) rest).
Proof.
  intros H.
  assert (After : forall s', consistent s' = true -> running_ (task s') = false ->
            forall cs evs,
              existsb is_CallRun cs = false ->
              Forall (fun a => is_relayed a = false)
                     (trace_of (forM tracker_emit evs (calls cs s')))).
  { intros s' C' R' cs evs Hcs. rewrite forM_tracker_emit_eq. cbn [trace_of snd].
    assert (Hz : relays (listeners (env (calls cs s'))) = []).
    { apply consistent_idle; [apply calls_consistent, C' | apply calls_idle; assumption]. }
    induction evs as [|ev evs IH]; cbn [flat_map]; [constructor|].
    apply Forall_app; split; [apply emission_not_relayed, Hz | exact IH]. }
  destruct (running_ (task s)) eqn:R.
  - destruct (stop_spec _ R) as (s' & E & Ht & Hl & Hn & Hls).
    destruct (consistent_running _ H R) as (c & Er & Hr).
    assert (R' : running_ (task s') = false) by (rewrite Ht; reflexivity).
    assert (Hrel : relays (listeners (env s')) = []).
    { rewrite Hls, Er. apply relays_removeListener, Hr. }
    assert (C' : consistent s' = true).
    { unfold consistent. rewrite R', Hrel. reflexivity. }
    exists RetThis, s', (TaskEmit "stop" None
                    :: flat_map (stop_listener_trace (stopping s)) (events_stop (task s))).
    split; [exact E|]. split; [exact R'|]. split; [exact Hrel|].
    split; [apply After; assumption|].
    intros _. eexists. split; [reflexivity|].
    intros ev Hin a Ha. apply in_flat_map. exists (StopDetect ev).
    split; [exact Hin|]. cbn [stop_listener_trace].
    apply (emission_relayed _ _ _ c); [|exact Ha].
    cbn. rewrite Hr. left; reflexivity.
  - exists RetUndefined, s, []. split; [apply stop_idle, R|].
    split; [exact R|]. split; [apply consistent_idle; assumption|].
    split; [apply After; assumption | discriminate].
Qed.

Lemma stop_ends_relay_witness :
  exists r s' rest,
    stop (with_task (on_stop (StopDetect demo_event) (task (demo_session 1)))
            (demo_session 1))
    = (Ok r, s', TaskEmit "stop" None :: rest) /\
    In (Heard 5 "track" (Some demo_event)) rest /\
    relays (listeners (env s')) = [] /\
    Forall (fun a => is_relayed a = false)
           (trace_of (forM tracker_emit [demo_event] s')).
Proof.
  destruct (stop_ends_relay
              (with_task (on_stop (StopDetect demo_event) (task (demo_session 1)))
                 (demo_session 1)) eq_refl)
    as (r & s' & acts & E & _ & Hrel & Hafter & Hin).
  destruct (Hin eq_refl) as (rest & -> & Hin').
  exists r, s', rest. split; [exact E|]. split; [|split; [exact Hrel|]].
  - apply (Hin' demo_event); [right; left; reflexivity | right; left; reflexivity].
  - exact (Hafter [] [demo_event] eq_refl).
Defined.

(** C4: on a task that is not running, two consecutive [run()] calls emit
    the [run] signal exactly once and leave exactly one relay subscribed on
    the tracker (the second call changes nothing and logs nothing); and
    [stop()] on a task that is not running emits nothing, removes nothing
    and does not throw. *)
Theorem run_idempotent (s : Session) :
  consistent s = true ->
  running_ (task s) = false ->
  let s1 := state_of (run s) in
  run s1 = (Ok RetUndefined, s1, []) /\
  signals "run" (trace_of (run s) ++ trace_of (run s1)) = 1%nat /\
  List.length (relays (listeners (env (state_of (run s1))))) = 1%nat /\
  stop s = (Ok RetUndefined, s, []).
Proof.
  intros H R s1.
  destruct (run_spec _ R) as (Hc & _ & rest & Ht & Hn).
  assert (R1 : running_ (task s1) = true).
  { unfold s1. injection Hc as -> _ _. reflexivity. }
  rewrite (run_running _ R1). split; [reflexivity|]. split; [|split].
  - cbn [trace_of snd]. rewrite app_nil_r, Ht. unfold signals. cbn [filter is_signal].
    cbn. f_equal. apply (signals_no_signal "run"), Hn.
  - cbn [state_of fst snd]. unfold s1. injection Hc as _ -> _.
    cbn. rewrite relays_app, (consistent_idle _ H R). reflexivity.
  - apply stop_idle, R.
Qed.

Lemma run_idempotent_witness :
  let s := fresh_session demo_tracker [7%nat] in
  signals "run" (trace_of (run s) ++ trace_of (run (state_of (run s)))) = 1%nat /\
  stop s = (Ok RetUndefined, s, []).
Proof.
  intros s.
  destruct (run_idempotent s eq_refl eq_refl) as (_ & Hs & _ & Hstop).
  split; [exact Hs | exact Hstop].
Defined.

(** C5: [run()] on a task that is already running changes nothing and
    returns [undefined], not the task. *)
Theorem run_while_running_returns_undefined (s : Session) :
  running_ (task s) = true ->
  run s = (Ok RetUndefined, s, []).
Proof. apply run_running. Qed.

Lemma run_while_running_returns_undefined_witness :
  run (demo_session 1) = (Ok RetUndefined, demo_session 1, []).
Proof. apply run_while_running_returns_undefined. reflexivity. Defined.

(** C9, as the code has it: after any sequence of operations on a task that
    starts as its constructor leaves it, a running task has a relay handle
    stored, and the relay is subscribed on the tracker exactly while the
    task runs; the stored handle itself is never cleared: it is defined
    exactly when [run()] has been called at least once. *)
Theorem relay_handle_invariant (s : Session) (cs : list Call) :
  running_ (task s) = false ->
  reemitTrackEvent_ (task s) = None ->
  relays (listeners (env s)) = [] ->
  let s' := calls cs s in
  (running_ (task s') = true -> reemitTrackEvent_ (task s') <> None) /\
  (reemitTrackEvent_ (task s') <> None <-> existsb is_CallRun cs = true) /\
  (relays (listeners (env s')) <> [] <-> running_ (task s') = true).
Proof.
  intros R E L. cbv zeta.
  destruct (calls_handle cs s) as (H1 & H2).
  { rewrite R. discriminate. }
  split; [exact H1|]. split.
  - rewrite H2, E. split; [intros [H|H]; [congruence | exact H] | auto].
  - assert (C : consistent (calls cs s) = true).
    { apply calls_consistent. unfold consistent. rewrite R, L. reflexivity. }
    destruct (running_ (task (calls cs s))) eqn:R'.
    + destruct (consistent_running _ C R') as (c & _ & ->).
      split; [reflexivity | discriminate].
    + rewrite (consistent_idle _ C R'). split; [congruence | discriminate].
Qed.

Lemma relay_handle_invariant_witness :
  let s' := calls [CallRun; CallStop] (fresh_session demo_tracker [7%nat]) in
  (running_ (task s') = true -> reemitTrackEvent_ (task s') <> None) /\
  (reemitTrackEvent_ (task s') <> None <-> existsb is_CallRun [CallRun; CallStop] = true) /\
  (relays (listeners (env s')) <> [] <-> running_ (task s') = true).
Proof.
  exact (relay_handle_invariant (fresh_session demo_tracker [7%nat])
           [CallRun; CallStop] eq_refl eq_refl eq_refl).
Defined.

(** C9 as stated fails: after [run()] and [stop()] the handle is still
    stored while the task no longer runs. *)
Lemma relay_handle_survives_stop :
  let s' := calls [CallRun; CallStop] (fresh_session demo_tracker [7%nat]) in
  ~ (reemitTrackEvent_ (task s') <> None <-> running_ (task s') = true).
Proof.
  cbv zeta. intros [H _].
  assert (E : running_ (task (calls [CallRun; CallStop]
                               (fresh_session demo_tracker [7%nat]))) = false)
    by reflexivity.
  rewrite E in H. discriminate H. vm_compute. discriminate.
Qed.

(** ** The sampling loop *)






Lemma frames_cons f fs s :
  frames (f :: fs) s
  = (trace_of (animationFrame f s) :: fst (frames fs (state_of (animationFrame f s))),
     snd (frames fs (state_of (animationFrame f s)))).
Proof.
  cbn [frames]. destruct (animationFrame f s) as [[r s1] acts]. cbn.
  destruct (frames fs s1). reflexivity.
Qed.
















(** * The entry point *)

(** C8: [track] throws, before it constructs a task, when the element
    handle selects nothing, when no tracker is given, and when the element
    is neither a canvas, an image nor a video; nothing has been scheduled,
    extracted or emitted then, and the tracker and the window are as they
    were.  A handle that is [null] makes it throw as well, and the
    constructor of [TrackerTask] throws without a tracker. *)
Theorem configuration_errors_at_construction
    (doc : Document) (element : Handle) (tracker : option Tracker)
    (opt_options : option Options) (en : Env) :
  (one doc element = Ok None ->
   track doc element tracker opt_options en
   = Failed (Err "Element not found, try a different element or selector.") en []) /\
  (forall el, one doc element = Ok (Some el) -> tracker = None ->
   track doc element tracker opt_options en
   = Failed (Err "Tracker not specified, try `tracking.track(element, new tracking.FaceTracker())`.")
       en []) /\
  (forall el tr, one doc element = Ok (Some el) -> tracker = Some tr ->
   toLowerCase (nodeName el) <> "canvas" ->
   toLowerCase (nodeName el) <> "img" ->
   toLowerCase (nodeName el) <> "video" ->
   track doc element tracker opt_options en
   = Failed (Err "Element not supported, try in a canvas, img, or video.") en []) /\
  (element = NoHandle ->
   exists e, track doc element tracker opt_options en = Failed e en []) /\
  new_TrackerTask None = Throw (Err "Tracker instance not specified.").
Proof.
  split; [|split; [|split; [|split]]].
  - intros H. unfold track. rewrite H. reflexivity.
  - intros el H ->. unfold track. rewrite H. reflexivity.
  - intros el tr H -> Hc Hi Hv. unfold track. rewrite H.
    apply String.eqb_neq in Hc, Hi, Hv. rewrite Hc, Hi, Hv. reflexivity.
  - intros ->. eexists. reflexivity.
  - reflexivity.
Qed.

Lemma configuration_errors_at_construction_witness :
  track demo_document (Selector "#nothing") (Some demo_tracker) None demo_env
  = Failed (Err "Element not found, try a different element or selector.") demo_env [] /\
  track demo_document (Selector "#video") None None demo_env
  = Failed (Err "Tracker not specified, try `tracking.track(element, new tracking.FaceTracker())`.")
      demo_env [] /\
  track demo_document (Node demo_div) (Some demo_tracker) None demo_env
  = Failed (Err "Element not supported, try in a canvas, img, or video.") demo_env [].
Proof.
  split; [|split].
  - apply (configuration_errors_at_construction demo_document (Selector "#nothing")
             (Some demo_tracker) None demo_env). reflexivity.
  - apply (proj1 (proj2 (configuration_errors_at_construction demo_document
                           (Selector "#video") None None demo_env)) demo_video);
      reflexivity.
  - apply (proj1 (proj2 (proj2 (configuration_errors_at_construction demo_document
                                  (Node demo_div) (Some demo_tracker) None demo_env)))
             demo_div demo_tracker); try reflexivity; discriminate.
Defined.

(** What [trackVideo_] hands back: a running task, a loop with its counter
    at 0, and its first callback pending. *)
Lemma trackVideo_launches (element : Element) (tr : Tracker) (o : Options) (en : Env) :
  exists s,
    trackVideo_ element (Some tr) (Some o) en
    = Launched (Ok RetThis) s [TaskEmit "run" None; FrameRequested (rafNext en)] /\
    count (loop s) = 0 /\
    running_ (task s) = true /\
    tracker_ (task s) = tr /\
    rafPending (env s) = rafPending en ++ [rafNext en] /\
    (relays (listeners en) = [] -> consistent s = true).
Proof.
  unfold trackVideo_, read_freq.
  destruct (opt_freq o); eexists; (split; [reflexivity|]);
    cbn; repeat split; intros H; unfold consistent; cbn;
    unfold EventEmitter.on; rewrite relays_app, H; cbn; apply Nat.eqb_refl.
Qed.

(** Every session that [track] hands back has its relay bookkeeping
    consistent, when the tracker had no relay of the task before. *)
Lemma launch_consistent s r s' acts :
  consistent s = true -> launch s = Launched r s' acts -> consistent s' = true.
Proof.
  intros H E. unfold launch in E.
  pose proof (call_consistent CallRun s H) as C. cbn [call] in C.
  destruct (run s) as [[r0 s0] acts0]. injection E as _ <- _. exact C.
Qed.

Lemma track_consistent doc element tracker opt_options en r s acts :
  relays (listeners en) = [] ->
  track doc element tracker opt_options en = Launched r s acts ->
  consistent s = true.
Proof.
  intros H. unfold track.
  destruct (one doc element) as [[el|]|]; try discriminate.
  destruct tracker as [tr|]; try discriminate.
  assert (C : forall t l, running_ t = false ->
                consistent {| env := en; task := t; loop := l |} = true).
  { intros t l R. unfold consistent. cbn. rewrite R, H. reflexivity. }
  destruct (String.eqb _ "canvas"); [|destruct (String.eqb _ "img");
    [|destruct (String.eqb _ "video"); [|discriminate]]].
  - unfold trackCanvas_. cbn [new_TrackerTask]. apply launch_consistent, C. reflexivity.
  - unfold trackImg_. cbn [new_TrackerTask]. apply launch_consistent, C. reflexivity.
  - destruct (match opt_options with Some _ => _ | None => _ end) as [acts0|e];
      [|discriminate].
    unfold trackVideo_. destruct (read_freq opt_options);
      cbn [new_TrackerTask prepend]; [|discriminate].
    intros E.
    match type of E with
    | prepend _ (launch ?s0) = _ =>
        destruct (launch s0) as [|r0 s1 acts1] eqn:L; cbn [prepend] in E;
          [discriminate|]; injection E as _ <- _;
          eapply launch_consistent; [|exact L]; apply C; reflexivity
    end.
Qed.

Lemma fresh_session_consistent tr subscribers :
  consistent (fresh_session tr subscribers) = true.
Proof. unfold consistent. cbn. rewrite relays_Subscribers. reflexivity. Qed.

(** C7, at the failing input and around it: with an options object,
    [trackVideo_] takes the frequency from its [freq] property and takes
    100 when the object has none; with no options object it throws a
    [TypeError] and no loop exists. *)
Theorem trackVideo_frequency (element : Element) (tr : Tracker) (en : Env) :
  (forall o, exists r s acts,
     trackVideo_ element (Some tr) (Some o) en = Launched r s acts /\
     freq (loop s) = match opt_freq o with Some f => f | None => 100 end) /\
  trackVideo_ element (Some tr) None en
  = Failed (TypeError "Cannot use 'in' operator to search for 'freq' in undefined") en [].
Proof.
  split; [|reflexivity].
  intros o. unfold trackVideo_, read_freq.
  destruct (opt_freq o); eexists _, _, _; split; reflexivity.
Qed.

(** C10: [track] on a video element without an options object throws a
    [TypeError]: no task is constructed, nothing is scheduled or emitted,
    and the tracker and the window are as they were.  With an options
    object, even an empty one, the same call constructs the task and runs
    it. *)
Theorem video_without_options_throws
    (doc : Document) (element : Handle) (el : Element) (tr : Tracker) (en : Env) :
  one doc element = Ok (Some el) ->
  toLowerCase (nodeName el) = "video" ->
  track doc element (Some tr) None en
  = Failed (TypeError "Cannot use 'in' operator to search for 'freq' in undefined") en [] /\
  exists s acts,
    track doc element (Some tr) (Some no_options) en = Launched (Ok RetThis) s acts /\
    freq (loop s) = 100 /\ running_ (task s) = true /\
    rafPending (env s) = rafPending en ++ [rafNext en].
Proof.
  intros H Hv. unfold track. rewrite H, Hv. cbn [String.eqb Ascii.eqb Bool.eqb].
  split; [reflexivity|].
  eexists _, _. split; [reflexivity|]. repeat split.
Qed.

Lemma video_without_options_throws_witness :
  track demo_document (Selector "#video") (Some demo_tracker) None demo_env
  = Failed (TypeError "Cannot use 'in' operator to search for 'freq' in undefined")
      demo_env [].
Proof.
  apply (video_without_options_throws demo_document (Selector "#video") demo_video
           demo_tracker demo_env); reflexivity.
Defined.

(** * Further properties of the relay *)

Lemma relayed_heard t ev : filter is_relayed (heard t ev) = heard t ev.
Proof.
  unfold heard. cbn [filter is_relayed String.eqb Ascii.eqb Bool.eqb]. f_equal.
  induction (events_track t) as [|id ids IH]; [reflexivity|].
  cbn [map filter is_relayed String.eqb Ascii.eqb Bool.eqb]. f_equal. exact IH.
Qed.

Lemma relayed_emission t ls ev :
  filter is_relayed (emission t ls ev) = flat_map (fun _ => heard t ev) (relays ls).
Proof.
  unfold emission. cbn [filter is_relayed].
  induction ls as [|[c|i] ls IH]; cbn [flat_map relays listener_trace]; [reflexivity | |].
  - rewrite filter_app, relayed_heard, IH. reflexivity.
  - cbn [app filter is_relayed]. exact IH.
Qed.

(** X1: while the task runs, every event that the tracker emits is relayed
    exactly once, unchanged and in the order of emission, to every external
    listener of the task in the order of their subscription; while it does
    not run, none is. *)
Theorem relay_exactly_once_in_order (s : Session) (evs : list TrackEvent) :
  consistent s = true ->
  forM tracker_emit evs s
  = (Ok tt, s, flat_map (emission (task s) (listeners (env s))) evs) /\
  filter is_relayed (trace_of (forM tracker_emit evs s))
  = if running_ (task s) then flat_map (heard (task s)) evs else [].
Proof.
  intros H. split; [apply forM_tracker_emit_eq|].
  rewrite forM_tracker_emit_eq. cbn [trace_of snd].
  assert (E : forall ev,
            filter is_relayed (emission (task s) (listeners (env s)) ev)
            = if running_ (task s) then heard (task s) ev else []).
  { intros ev. rewrite relayed_emission. destruct (running_ (task s)) eqn:R.
    - destruct (consistent_running _ H R) as (c & _ & ->). cbn [flat_map]. apply app_nil_r.
    - rewrite (consistent_idle _ H R). reflexivity. }
  induction evs as [|ev evs IH]; cbn [flat_map].
  - destruct (running_ (task s)); reflexivity.
  - rewrite filter_app, E, IH. destruct (running_ (task s)); reflexivity.
Qed.

Lemma relay_exactly_once_in_order_witness :
  filter is_relayed
    (trace_of (forM tracker_emit [demo_event; {| data := [] |}] (demo_session 1)))
  = [TaskEmit "track" (Some demo_event); Heard 5 "track" (Some demo_event);
     TaskEmit "track" (Some {| data := [] |}); Heard 5 "track" (Some {| data := [] |})].
Proof.
  exact (proj2 (relay_exactly_once_in_order (demo_session 1)
                  [demo_event; {| data := [] |}] eq_refl)).
Defined.

Lemma removeListener_only_relay ls c :
  relays ls = [c] ->
  EventEmitter.removeListener ls (Reemit c) = filter is_Subscriber ls.
Proof.
  induction ls as [|[d|i] ls IH];
    cbn [relays EventEmitter.removeListener filter is_Subscriber TrackerListener_eqb];
    intros H.
  - discriminate.
  - injection H as -> H. rewrite Nat.eqb_refl.
    clear IH. induction ls as [|[d|i] ls IH]; cbn [relays filter is_Subscriber] in *.
    + reflexivity.
    + discriminate.
    + f_equal. apply IH, H.
  - f_equal. apply IH, H.
Qed.

Lemma no_relay_all_subscribers ls : relays ls = [] -> filter is_Subscriber ls = ls.
Proof.
  induction ls as [|[d|i] ls IH]; cbn [relays filter is_Subscriber]; intros H.
  - reflexivity.
  - discriminate.
  - f_equal. apply IH, H.
Qed.

(** X2: [stop()] on a running task takes the task's own relay off the
    tracker and nothing else: the callbacks subscribed directly on the
    tracker stay, in their order.  So [run()] followed by [stop()] leaves the
    tracker's listeners exactly as they were. *)
Theorem stop_removes_only_its_relay (s : Session) :
  consistent s = true ->
  (running_ (task s) = true ->
   listeners (env (state_of (stop s))) = filter is_Subscriber (listeners (env s))) /\
  (running_ (task s) = false ->
   listeners (env (calls [CallRun; CallStop] s)) = listeners (env s)).
Proof.
  intros H.
  assert (A : forall s0, consistent s0 = true -> running_ (task s0) = true ->
            listeners (env (state_of (stop s0)))
            = filter is_Subscriber (listeners (env s0))).
  { intros s0 H0 R0.
    destruct (stop_spec _ R0) as (s' & E & _ & _ & _ & Hl).
    destruct (consistent_running _ H0 R0) as (c & Er & Hr).
    rewrite E. cbn [state_of fst snd]. rewrite Hl, Er.
    apply removeListener_only_relay, Hr. }
  split; [apply A, H|].
  intros R. cbn [calls fold_left call].
  destruct (run_spec _ R) as (Hc & _).
  assert (R1 : running_ (task (state_of (run s))) = true).
  { injection Hc as -> _ _. reflexivity. }
  rewrite A; [|exact (call_consistent CallRun s H) | exact R1].
  injection Hc as _ -> _. cbn [started env listeners].
  rewrite filter_app. cbn. rewrite app_nil_r.
  apply no_relay_all_subscribers, consistent_idle; assumption.
Qed.

Lemma stop_removes_only_its_relay_witness :
  listeners (env (state_of (stop (demo_session 1)))) = [Subscriber 7] /\
  listeners (env (calls [CallRun; CallStop] (fresh_session demo_tracker [3%nat; 4%nat])))
  = [Subscriber 3; Subscriber 4].
Proof.
  split.
  - exact (proj1 (stop_removes_only_its_relay (demo_session 1) eq_refl) eq_refl).
  - exact (proj2 (stop_removes_only_its_relay
                    (fresh_session demo_tracker [3%nat; 4%nat]) eq_refl) eq_refl).
Defined.

Lemma no_signal_stop_listeners s0 ls :
  Forall no_signal (flat_map (stop_listener_trace s0) ls).
Proof.
  induction ls as [|l ls IH]; cbn [flat_map]; [constructor|].
  apply Forall_app; split; [|exact IH].
  destruct l as [id| |ev]; cbn [stop_listener_trace].
  - repeat constructor.
  - destruct (requestId (loop s0)); repeat constructor.
  - apply no_signal_emission.
Qed.

(** X3: two consecutive [stop()] calls on a running task emit the [stop]
    signal exactly once; the second call changes nothing, logs nothing and
    returns [undefined]. *)
Theorem stop_idempotent (s : Session) :
  running_ (task s) = true ->
  let s1 := state_of (stop s) in
  result_of (stop s) = Ok RetThis /\
  running_ (task s1) = false /\
  stop s1 = (Ok RetUndefined, s1, []) /\
  signals "stop" (trace_of (stop s) ++ trace_of (stop s1)) = 1%nat.
Proof.
  intros R. cbv zeta.
  destruct (stop_spec _ R) as (s' & E & Ht & _).
  rewrite E. cbn [result_of state_of trace_of fst snd].
  assert (R' : running_ (task s') = false) by (rewrite Ht; reflexivity).
  rewrite (stop_idle _ R'). cbn [trace_of snd]. rewrite app_nil_r.
  repeat split; try assumption.
  unfold signals. cbn [filter is_signal String.eqb Ascii.eqb Bool.eqb List.length].
  f_equal. apply (signals_no_signal "stop"), no_signal_stop_listeners.
Qed.

Lemma stop_idempotent_witness :
  signals "stop" (trace_of (stop (demo_session 1))
                  ++ trace_of (stop (state_of (stop (demo_session 1))))) = 1%nat.
Proof.
  exact (proj2 (proj2 (proj2 (stop_idempotent (demo_session 1) eq_refl)))).
Defined.

(** * Further properties of the video loop *)

Lemma forM_run_listeners_external ls : forall s,
  filter is_path_listener ls = [] ->
  exists acts, forM call_run_listener ls s = (Ok tt, s, acts).
Proof.
  induction ls as [|l ls IH]; intros s H.
  - exists []. reflexivity.
  - destruct l; cbn [filter is_path_listener] in H; try discriminate.
    destruct (IH s H) as (acts & E).
    cbn [forM call_run_listener]. rewrite bind_log, E. eexists. reflexivity.
Qed.

Lemma forM_run_listeners_video ls : forall s,
  filter is_path_listener ls = [RunVideo] ->
  exists acts, forM call_run_listener ls s = (Ok tt, registered s, acts).
Proof.
  induction ls as [|l ls IH]; intros s H.
  - discriminate.
  - destruct l; cbn [filter is_path_listener] in H; try discriminate.
    + destruct (IH s H) as (acts & E).
      cbn [forM call_run_listener]. rewrite bind_log, E. eexists. reflexivity.
    + injection H as H.
      destruct (forM_run_listeners_external ls (registered s) H) as (acts & E).
      cbn [forM call_run_listener].
      erewrite bind_Ok by apply requestAnimationFrame_eq. rewrite E.
      eexists. reflexivity.
Qed.

Lemma video_hooks_run t :
  video_hooks t = true -> filter is_path_listener (events_run t) = [RunVideo].
Proof.
  unfold video_hooks. destruct (filter is_path_listener (events_run t)) as [|[] []];
    try discriminate. reflexivity.
Qed.

Lemma video_hooks_stop t :
  video_hooks t = true -> existsb is_StopVideo (events_stop t) = true.
Proof.
  unfold video_hooks. destruct (filter is_path_listener (events_run t)) as [|[] []];
    try discriminate. auto.
Qed.

(** [run()] on an idle video task registers the first callback and
    returns the task. *)
Lemma run_video s :
  running_ (task s) = false -> video_hooks (task s) = true ->
  exists acts, run s = (Ok RetThis, registered (started s), acts).
Proof.
  intros R V. rewrite (run_idle _ R).
  destruct (forM_run_listeners_video (events_run (task s)) (started s)
              (video_hooks_run _ V)) as (acts & E).
  unfold emit_run, EventEmitter.emit. unfold bind at 1.
  rewrite bind_log, bind_get. cbn [started task events_run] in *.
  rewrite E. eexists. reflexivity.
Qed.

Lemma call_stop_listener_pending l s :
  rafPending (env (state_of (call_stop_listener l s)))
  = if is_StopVideo l then cancelled (requestId (loop s)) (rafPending (env s))
    else rafPending (env s).
Proof.
  destruct l as [id| |ev]; cbn [call_stop_listener is_StopVideo].
  - reflexivity.
  - rewrite bind_get. destruct (requestId (loop s)); reflexivity.
  - rewrite tracker_emit_eq. reflexivity.
Qed.

Lemma cancelled_twice id p : cancelled id (cancelled id p) = cancelled id p.
Proof. destruct id; [apply remove_remove_eq | reflexivity]. Qed.

Lemma forM_stop_listeners_pending ls : forall s,
  rafPending (env (state_of (forM call_stop_listener ls s)))
  = if existsb is_StopVideo ls then cancelled (requestId (loop s)) (rafPending (env s))
    else rafPending (env s).
Proof.
  induction ls as [|l ls IH]; intros s; [reflexivity|].
  cbn [forM existsb].
  destruct (call_stop_listener_eq l s) as (s1 & E & S).
  pose proof (call_stop_listener_pending l s) as P. rewrite E in P.
  cbn [state_of fst snd] in P.
  erewrite bind_Ok by exact E. cbn [state_of fst snd].
  rewrite IH, P. destruct S as (_ & -> & _).
  destruct (is_StopVideo l), (existsb is_StopVideo ls); cbn [orb];
    try reflexivity. apply cancelled_twice.
Qed.

(** [stop()] on a running video task cancels the callback whose handle is in
    [requestId]; the loop's variables and the window's next handle stay. *)
Lemma stop_video s :
  running_ (task s) = true -> video_hooks (task s) = true ->
  exists s',
    stop s = (Ok RetThis, s',
              TaskEmit "stop" None
                :: flat_map (stop_listener_trace (stopping s)) (events_stop (task s))) /\
    task s' = set_running false (task s) /\
    loop s' = loop s /\
    rafNext (env s') = rafNext (env s) /\
    rafPending (env s') = cancelled (requestId (loop s)) (rafPending (env s)).
Proof.
  intros R V. rewrite (stop_running _ R).
  destruct (emit_stop_eq (stopping s)) as (s1 & E & Ht & Hl & Hls & Hn & Hc).
  assert (P : rafPending (env s1)
              = cancelled (requestId (loop s)) (rafPending (env s))).
  { assert (Es : state_of (emit_stop (stopping s))
                 = state_of (forM call_stop_listener (events_stop (task s)) (stopping s)))
      by (unfold emit_stop, EventEmitter.emit; rewrite bind_log, bind_get; reflexivity).
    rewrite E in Es. cbn [state_of fst snd] in Es.
    rewrite Es, forM_stop_listeners_pending, (video_hooks_stop _ V). reflexivity. }
  erewrite bind_Ok by exact E. rewrite bind_get, Ht.
  cbn [stopping with_task task set_running reemitTrackEvent_].
  destruct (reemitTrackEvent_ (task s)) as [c|]; cbn [tracker_removeListener].
  - eexists. split.
    + erewrite bind_step by (rewrite bind_get; reflexivity).
      cbn. rewrite app_nil_r. reflexivity.
    + cbn. repeat split; assumption.
  - exists s1. split.
    + rewrite bind_ret. cbn. rewrite app_nil_r. reflexivity.
    + repeat split; assumption.
Qed.

Lemma frames_idle fs : forall s,
  rafPending (env s) = [] -> frames fs s = (repeat [] (List.length fs), s).
Proof.
  induction fs as [|f fs IH]; intros s H; [reflexivity|].
  rewrite frames_cons, (frame_idle f s H). cbn [trace_of state_of fst snd].
  rewrite (IH s H). reflexivity.
Qed.

Lemma in_flight_running s :
  loop_in_flight s = true -> running_ (task s) = true ->
  exists h, rafPending (env s) = [h] /\ requestId (loop s) = Some h.
Proof.
  unfold loop_in_flight. intros H R. rewrite R in H.
  destruct (rafPending (env s)) as [|h [|]]; try discriminate.
  destruct (requestId (loop s)) as [h'|]; try discriminate.
  apply Nat.eqb_eq in H. subst h'. exists h. split; reflexivity.
Qed.


Lemma cancelled_own h : cancelled (Some h) [h] = [].
Proof. cbn. destruct (Nat.eq_dec h h); [reflexivity | congruence]. Qed.






(** X5: [stop()] called between two callbacks of a running video task (its
    callback is pending, none is running) cancels the pending callback, and
    from then on no animation frame runs the callback: nothing is extracted,
    nothing is scheduled and the session does not change.  A [stop()] that a
    listener calls while a callback is running is another matter, not
    covered here: the handle it cancels has already fired, and the running
    callback registers its successor all the same. *)
Theorem stop_cancels_the_loop (s : Session) (fs : list Frame) :
  video_hooks (task s) = true ->
  loop_in_flight s = true ->
  running_ (task s) = true ->
  let s1 := state_of (stop s) in
  (exists h, requestId (loop s) = Some h /\ In (FrameCancelled h) (trace_of (stop s))) /\
  rafPending (env s1) = [] /\
  frames fs s1 = (repeat [] (List.length fs), s1).
Proof.
  intros V H R. cbv zeta.
  destruct (stop_video _ R V) as (s' & E & Et & El & En & Ep).
  destruct (in_flight_running _ H R) as (h & Hp & Hr).
  rewrite E. cbn [state_of trace_of fst snd].
  assert (P : rafPending (env s') = []) by (rewrite Ep, Hp, Hr; apply cancelled_own).
  split; [|split; [exact P | apply frames_idle, P]].
  exists h. split; [exact Hr|]. right. apply in_flat_map. exists StopVideo. split.
  - apply video_hooks_stop in V. apply existsb_exists in V as ([] & Hin & Hv);
      try discriminate. exact Hin.
  - cbn. rewrite Hr. left. reflexivity.
Qed.

Lemma stop_cancels_the_loop_witness :
  frames [good_frame; good_frame] (state_of (stop (demo_session 1)))
  = ([[]; []], state_of (stop (demo_session 1))).
Proof.
  exact (proj2 (proj2 (stop_cancels_the_loop (demo_session 1) [good_frame; good_frame]
                         eq_refl eq_refl eq_refl))).
Defined.

(** X6: stopping a running video task and running it again resumes the loop
    where it was: the counter is not reset, the frequency and the canvas
    are kept, and one new callback is pending. *)
Theorem restart_resumes_the_counter (s : Session) :
  video_hooks (task s) = true ->
  loop_in_flight s = true ->
  running_ (task s) = true ->
  let s2 := calls [CallStop; CallRun] s in
  running_ (task s2) = true /\
  count (loop s2) = count (loop s) /\
  freq (loop s2) = freq (loop s) /\
  canvas (loop s2) = canvas (loop s) /\
  rafPending (env s2) = [rafNext (env s)] /\
  requestId (loop s2) = Some (rafNext (env s)).
Proof.
  intros V H R. cbv zeta. cbn [calls fold_left call].
  destruct (stop_video _ R V) as (s' & E & Et & El & En & Ep).
  destruct (in_flight_running _ H R) as (h & Hp & Hr).
  rewrite E. cbn [state_of fst snd].
  assert (R' : running_ (task s') = false) by (rewrite Et; reflexivity).
  assert (V' : video_hooks (task s') = true) by (rewrite Et; exact V).
  destruct (run_video _ R' V') as (acts & ->). cbn.
  rewrite El, En, Ep, Hp, Hr, cancelled_own. repeat split.
Qed.

Lemma restart_resumes_the_counter_witness :
  let s := state_of (animationFrame good_frame (demo_session 3)) in
  count (loop s) = 1 /\ count (loop (calls [CallStop; CallRun] s)) = 1.
Proof.
  cbv zeta. split; [reflexivity|].
  rewrite (proj1 (proj2 (restart_resumes_the_counter
                           (state_of (animationFrame good_frame (demo_session 3)))
                           eq_refl eq_refl eq_refl))).
  reflexivity.
Defined.



(** X8: with the frequency 0 the callback never extracts ([count % 0] is
    [NaN]): in any run of frames of a live loop, whatever the video and the
    tracker, [tracker.track] is never called, every frame only registers the
    next callback, and the counter grows by one at each frame, never
    reset. *)
Theorem zero_frequency_never_extracts (fs : list Frame) (s : Session) :
  freq (loop s) = 0 ->
  rafPending (env s) <> [] ->
  all_fired fs s = true /\
  extraction_ticks 1 (fst (frames fs s)) = [] /\
  track_calls (List.concat (fst (frames fs s))) = 0%nat /\
  forallb reregistered (fst (frames fs s)) = true /\
  count (loop (snd (frames fs s))) = count (loop s) + Z.of_nat (List.length fs) /\
  rafPending (env (snd (frames fs s))) <> [].
Proof.
  assert (G : forall fs k s, freq (loop s) = 0 -> rafPending (env s) <> [] ->
            all_fired fs s = true /\
            extraction_ticks k (fst (frames fs s)) = [] /\
            track_calls (List.concat (fst (frames fs s))) = 0%nat /\
            forallb reregistered (fst (frames fs s)) = true /\
            count (loop (snd (frames fs s))) = count (loop s) + Z.of_nat (List.length fs) /\
            rafPending (env (snd (frames fs s))) <> []).
  { clear. induction fs as [|f fs IH]; intros k s Hf Hp.
    - cbn. rewrite Z.add_0_r. repeat split; assumption.
    - destruct (rafPending (env s)) as [|h rest] eqn:Ep; [congruence|].
      assert (Hd : divides_tick (count (loop s) + 1) (freq (loop s)) = false)
        by (rewrite Hf; reflexivity).
      pose proof (frame_skip f s h rest Ep Hd) as E.
      destruct (IH (S k) (registered (ticked (count (loop s) + 1) (canvas (loop s)) rest s)))
        as (I1 & I2 & I3 & I4 & I5 & I6).
      { exact Hf. }
      { cbn. destruct rest; discriminate. }
      rewrite frames_cons. cbn [all_fired]. rewrite Ep, E.
      cbn [trace_of state_of fst snd extraction_ticks extracted existsb is_TrackCall
           List.concat forallb reregistered is_FrameRequested orb andb app].
      unfold track_calls in *. cbn [filter is_TrackCall].
      rewrite I5. cbn [registered ticked loop set_requestId count List.length].
      repeat split; try assumption. lia. }
  intros Hf Hp. apply G; assumption.
Qed.

Lemma zero_frequency_never_extracts_witness :
  track_calls (List.concat (fst (frames (repeat good_frame 5) (demo_session 0)))) = 0%nat /\
  count (loop (snd (frames (repeat good_frame 5) (demo_session 0)))) = 5.
Proof.
  destruct (zero_frequency_never_extracts (repeat good_frame 5) (demo_session 0)
              eq_refl ltac:(discriminate)) as (_ & _ & H3 & _ & H5 & _).
  split; [exact H3 | exact H5].
Defined.







(** * The canvas path and the camera *)

(** [run()] of the task that [trackCanvas_] constructs. *)
Lemma run_canvas el tr en :
  run {| env := en;
         task := on_run (RunCanvas el)
                   {| tracker_ := tr; running_ := false; reemitTrackEvent_ := None;
                      events_run := []; events_stop := []; events_track := [] |};
         loop := no_loop |}
  = let s1 := started {| env := en;
                         task := on_run (RunCanvas el)
                                   {| tracker_ := tr; running_ := false;
                                      reemitTrackEvent_ := None; events_run := [];
                                      events_stop := []; events_track := [] |};
                         loop := no_loop |} in
    if zero_sized (el_width el) (el_height el) then
      (Throw (DOMException "IndexSizeError"), s1, [TaskEmit "run" None])
    else
      match track_fn tr (el_pixels el) (el_width el) (el_height el) with
      | Emits evs =>
          (Ok RetThis, s1,
           TaskEmit "run" None
             :: TrackCall (el_pixels el) (el_width el) (el_height el)
             :: flat_map (emission (task s1) (listeners (env s1))) evs)
      | Raises e =>
          (Throw e, s1,
           [TaskEmit "run" None; TrackCall (el_pixels el) (el_width el) (el_height el)])
      end.
Proof.
  rewrite run_idle by reflexivity. cbv zeta.
  match goal with |- bind emit_run _ ?s1 = _ => set (s := s1) end.
  assert (E : emit_run s
              = if zero_sized (el_width el) (el_height el) then
                  (Throw (DOMException "IndexSizeError"), s, [TaskEmit "run" None])
                else
                  match track_fn tr (el_pixels el) (el_width el) (el_height el) with
                  | Emits evs =>
                      (Ok tt, s,
                       TaskEmit "run" None
                         :: TrackCall (el_pixels el) (el_width el) (el_height el)
                         :: flat_map (emission (task s) (listeners (env s))) evs)
                  | Raises e =>
                      (Throw e, s,
                       [TaskEmit "run" None;
                        TrackCall (el_pixels el) (el_width el) (el_height el)])
                  end).
  { unfold emit_run, EventEmitter.emit. rewrite bind_log, bind_get.
    change (events_run (task s)) with [RunCanvas el].
    cbn [forM call_run_listener]. unfold bind. rewrite trackCanvasInternal_eq.
    change (tracker_ (task s)) with tr.
    destruct (zero_sized (el_width el) (el_height el)); [reflexivity|].
    destruct (track_fn tr (el_pixels el) (el_width el) (el_height el)); cbn;
      rewrite ?app_nil_r; reflexivity. }
  unfold bind. rewrite E.
  destruct (zero_sized (el_width el) (el_height el)); [reflexivity|].
  destruct (track_fn tr (el_pixels el) (el_width el) (el_height el)); cbn;
    rewrite ?app_nil_r; reflexivity.
Qed.







(** X12: [track] asks for the camera only for a video element whose options
    have a truthy [camera], once, with the [audio] flag of the options, and
    before the task is run.  When the navigator has [getUserMedia] under one
    of its four names, or the camera is not asked for, the task is
    constructed and run; when the camera is asked for and the navigator has
    none of them, [track] throws a [TypeError] before any task is
    constructed and nothing is scheduled.  For a canvas or an image element
    the options play no part at all. *)
Theorem camera_only_for_video (doc : Document) (element : Handle) (el : Element)
    (tr : Tracker) (o : Options) (en : Env) :
  one doc element = Ok (Some el) ->
  (toLowerCase (nodeName el) = "video" ->
   (opt_camera o = false \/ hasUserMedia en = true ->
    exists s,
      track doc element (Some tr) (Some o) en
      = Launched (Ok RetThis) s
          ((if opt_camera o then [UserMedia (opt_audio o)] else [])
             ++ [TaskEmit "run" None; FrameRequested (rafNext en)])) /\
   (opt_camera o = true -> hasUserMedia en = false ->
    track doc element (Some tr) (Some o) en
    = Failed (TypeError "navigator.getUserMedia is not a function") en [])) /\
  (toLowerCase (nodeName el) = "canvas" \/ toLowerCase (nodeName el) = "img" ->
   forall opt_options,
     track doc element (Some tr) opt_options en = track doc element (Some tr) None en).
Proof.
  intros H. split.
  - intros Hv. unfold track. rewrite H, Hv. cbn [String.eqb Ascii.eqb Bool.eqb].
    unfold initUserMedia_. split.
    + intros Hm. destruct (trackVideo_launches el tr o en) as (s & E & _). rewrite E.
      exists s. destruct (opt_camera o); [|reflexivity].
      destruct Hm as [Hm|Hm]; [discriminate|]. rewrite Hm. reflexivity.
    + intros Hc Hm. rewrite Hc, Hm. reflexivity.
  - intros [Hc|Hi] opt_options; unfold track; rewrite H, ?Hc, ?Hi; reflexivity.
Qed.

Lemma camera_only_for_video_witness :
  (exists s,
     track demo_document (Selector "#video") (Some demo_tracker)
       (Some {| opt_freq := None; opt_camera := true; opt_audio := true |}) demo_env
     = Launched (Ok RetThis) s [UserMedia true; TaskEmit "run" None; FrameRequested 1]) /\
  track demo_document (Selector "#video") (Some demo_tracker)
    (Some {| opt_freq := None; opt_camera := true; opt_audio := true |}) old_navigator
  = Failed (TypeError "navigator.getUserMedia is not a function") old_navigator [].
Proof.
  split.
  - exact (proj1 (proj1 (camera_only_for_video demo_document (Selector "#video")
                           demo_video demo_tracker
                           {| opt_freq := None; opt_camera := true; opt_audio := true |}
                           demo_env eq_refl) eq_refl) (or_intror eq_refl)).
  - exact (proj2 (proj1 (camera_only_for_video demo_document (Selector "#video")
                           demo_video demo_tracker
                           {| opt_freq := None; opt_camera := true; opt_audio := true |}
                           old_navigator eq_refl) eq_refl) eq_refl eq_refl).
Defined.

(** * ObjectTracker *)

Lemma resolve_classifiers_Ok {C} (registry : string -> option C) l : forall cs,
  resolve_classifiers registry l = Ok cs <->
  map (lookup_classifier registry) l = map Some cs.
Proof.
  induction l as [|a l IH]; intros cs; cbn [resolve_classifiers map].
  - destruct cs; cbn; split; intros H; try reflexivity; discriminate.
  - destruct (lookup_classifier registry a) as [c|].
    + destruct (resolve_classifiers registry l) as [cs'|e].
      * split; intros H.
        -- injection H as <-. cbn. f_equal. apply IH. reflexivity.
        -- destruct cs as [|c0 cs0]; [discriminate|]. cbn in H.
           injection H as -> H. apply IH in H. injection H as ->. reflexivity.
      * split; intros H; [discriminate|].
        destruct cs as [|c0 cs0]; [discriminate|]. cbn in H.
        injection H as _ H. apply IH in H. discriminate.
    + split; intros H; [discriminate|].
      destruct cs; discriminate.
Qed.

Lemma resolve_classifiers_Throw {C} (registry : string -> option C) l :
  (exists a, In a l /\ lookup_classifier registry a = None) <->
  resolve_classifiers registry l = Throw (Err msg_not_valid).
Proof.
  induction l as [|a l IH]; cbn [resolve_classifiers].
  - split; [intros (a & [] & _) | discriminate].
  - destruct (lookup_classifier registry a) as [c|] eqn:E.
    + destruct (resolve_classifiers registry l) as [cs'|e].
      * split; [|discriminate].
        intros (b & [<-|Hb] & Hn); [congruence|].
        assert (H : Ok cs' = Throw (Err msg_not_valid)) by (apply IH; eauto).
        discriminate.
      * split.
        -- intros (b & [<-|Hb] & Hn); [congruence|].
           assert (H : Throw e = Throw (Err msg_not_valid)) by (apply IH; eauto).
           exact H.
        -- intros H. destruct (proj2 IH H) as (b & Hb & Hn).
           exists b. split; [right; exact Hb | exact Hn].
    + split; [reflexivity|]. intros _. exists a. split; [left; reflexivity | exact E].
Qed.

(** X13: the constructor of [ObjectTracker] accepts an array of classifiers
    exactly when every name in it is in the table of classifiers, and then
    stores the data of the classifiers in the order given; it throws
    "Object classifier not valid" exactly when some name is not in the
    table.  A single classifier other than the empty string is the array of
    that one classifier. *)
Theorem new_ObjectTracker_validates {C} (registry : string -> option C)
    (l : list (ClassifierArg C)) :
  (forall cs,
     new_ObjectTracker registry (ManyClassifiers l) = Ok (StoredArray cs) <->
     map (lookup_classifier registry) l = map Some cs) /\
  ((exists a, In a l /\ lookup_classifier registry a = None) <->
   new_ObjectTracker registry (ManyClassifiers l) = Throw (Err msg_not_valid)) /\
  (forall a, a <> ByName EmptyString ->
     new_ObjectTracker registry (OneClassifier a)
     = new_ObjectTracker registry (ManyClassifiers [a])).
Proof.
  split; [|split].
  - intros cs. rewrite <- resolve_classifiers_Ok. cbn [new_ObjectTracker].
    destruct (resolve_classifiers registry l); split; intros H;
      try discriminate; congruence.
  - rewrite resolve_classifiers_Throw. cbn [new_ObjectTracker].
    destruct (resolve_classifiers registry l); split; intros H;
      try discriminate; congruence.
  - intros [[|c s]|c] H; try reflexivity. congruence.
Qed.

Lemma new_ObjectTracker_validates_witness :
  new_ObjectTracker demo_registry (ManyClassifiers [ByName "face"; ByData 9%nat; ByName "eye"])
  = Ok (StoredArray [1%nat; 9%nat; 2%nat]) /\
  new_ObjectTracker demo_registry (ManyClassifiers [ByName "face"; ByName "mouth"])
  = Throw (Err msg_not_valid).
Proof.
  split.
  - apply (proj1 (new_ObjectTracker_validates demo_registry
                    [ByName "face"; ByData 9%nat; ByName "eye"])). reflexivity.
  - apply (proj1 (proj2 (new_ObjectTracker_validates demo_registry
                           [ByName "face"; ByName "mouth"]))).
    exists (ByName "mouth"). split; [right; left; reflexivity | reflexivity].
Defined.

Lemma fold_left_concat {A B} (g : A -> list B) (l : list A) : forall acc,
  fold_left (fun results c => results ++ g c) l acc = acc ++ flat_map g l.
Proof.
  induction l as [|a l IH]; intros acc; cbn [fold_left flat_map].
  - symmetry. apply app_nil_r.
  - rewrite IH, app_assoc. reflexivity.
Qed.

(** X14: a tracker that the constructor made from classifiers never throws
    in [track]: every call emits exactly one event, whose data are the
    rectangles that [violaJones.detect] finds for each classifier, in the
    order of the classifiers.  A tracker made without an argument, or from
    the empty string, is constructed without complaint and throws
    "Object classifier not specified" at every [track]. *)
Theorem constructed_tracker_emits_once {C} (registry : string -> option C)
    (detect : Pixels -> Z -> Z -> C -> list Rect)
    (opt_classifiers : ClassifiersArg C) (st : StoredClassifiers C)
    (pixels : Pixels) (w h : Z) :
  new_ObjectTracker registry opt_classifiers = Ok st ->
  track_fn (ObjectTracker (getClassifiers st) detect) pixels w h
  = match st with
    | StoredArray cs => Emits [ {| data := flat_map (detect pixels w h) cs |} ]
    | StoredUndefined | StoredEmptyString => Raises (Err msg_not_specified)
    end /\
  ((exists cs, st = StoredArray cs) <->
   opt_classifiers <> NoClassifiers /\
   opt_classifiers <> OneClassifier (ByName EmptyString)).
Proof.
  intros H. split.
  - destruct st as [| |cs]; cbn; try reflexivity.
    rewrite fold_left_concat. reflexivity.
  - destruct opt_classifiers as [|[[|c s]|c]|l]; cbn in H.
    + injection H as <-. split; [intros (cs & E); discriminate | intros [E _]; congruence].
    + injection H as <-. split; [intros (cs & E); discriminate | intros [_ E]; congruence].
    + destruct (registry (String c s)); [|discriminate]. injection H as <-.
      split; [intros _; split; discriminate | intros _; eexists; reflexivity].
    + injection H as <-.
      split; [intros _; split; discriminate | intros _; eexists; reflexivity].
    + destruct (resolve_classifiers registry l); [|discriminate]. injection H as <-.
      split; [intros _; split; discriminate | intros _; eexists; reflexivity].
Qed.

Lemma constructed_tracker_emits_once_witness :
  track_fn (ObjectTracker (getClassifiers (StoredArray [1%nat; 2%nat]))
              (fun _ w _ c => [ {| rect_x := Z.of_nat c; rect_y := 0; rect_width := w;
                                   rect_height := w; rect_total := 1 |} ]))
    [0; 0; 0; 0] 1 1
  = Emits [ {| data := [ {| rect_x := 1; rect_y := 0; rect_width := 1; rect_height := 1;
                            rect_total := 1 |};
                         {| rect_x := 2; rect_y := 0; rect_width := 1; rect_height := 1;
                            rect_total := 1 |} ] |} ].
Proof.
  exact (proj1 (constructed_tracker_emits_once demo_registry
                  (fun _ w _ c => [ {| rect_x := Z.of_nat c; rect_y := 0; rect_width := w;
                                       rect_height := w; rect_total := 1 |} ])
                  (ManyClassifiers [ByName "face"; ByName "eye"])
                  (StoredArray [1%nat; 2%nat]) [0; 0; 0; 0] 1 1 eq_refl)).
Defined.

(** * Changing the tracker of a task *)

Lemma detached_emit_eq ls ev s :
  detached_emit ls ev s = (Ok tt, s, emission (task s) ls ev).
Proof.
  unfold detached_emit, EventEmitter.emit. rewrite bind_log.
  rewrite (forM_silent _ (fun s => listener_trace (task s) ev)).
  - reflexivity.
  - intros. apply call_tracker_listener_eq.
Qed.

Lemma removeListener_absent ls c :
  relays ls = [] -> EventEmitter.removeListener ls (Reemit c) = ls.
Proof.
  induction ls as [|[d|i] ls IH]; cbn [relays EventEmitter.removeListener]; intros H.
  - reflexivity.
  - discriminate.
  - cbn [TrackerListener_eqb]. f_equal. apply IH, H.
Qed.

(** X15: [setTracker] on a running task moves neither the relay nor the
    subscription: the relay stays on the former tracker.  From then on the
    detections of the new tracker are not relayed although the task runs,
    and [stop()], which unsubscribes from the tracker the task now refers
    to, removes nothing: after it the detections of the former tracker are
    still relayed to the task's listeners. *)
Theorem setTracker_strands_the_relay (s : Session) (tracker : Tracker)
    (its_listeners : list TrackerListener) :
  consistent s = true ->
  running_ (task s) = true ->
  relays its_listeners = [] ->
  let s1 := fst (setTracker tracker its_listeners s) in
  let former := snd (setTracker tracker its_listeners s) in
  getTracker s1 = tracker /\
  (forall evs, filter is_relayed (trace_of (forM tracker_emit evs s1)) = []) /\
  exists s2 acts,
    stop s1 = (Ok RetThis, s2, acts) /\
    running_ (task s2) = false /\
    listeners (env s2) = its_listeners /\
    forall ev,
      filter is_relayed (trace_of (detached_emit former ev s2)) = heard (task s2) ev.
Proof.
  intros H R L. cbv zeta. cbn [setTracker fst snd].
  destruct (consistent_running _ H R) as (c & Er & Hr).
  split; [reflexivity|]. split.
  - intros evs. rewrite forM_tracker_emit_eq. cbn [trace_of snd env task listeners set_listeners].
    induction evs as [|ev evs IH]; [reflexivity|].
    cbn [flat_map]. rewrite filter_app, relayed_emission, L, IH. reflexivity.
  - match goal with |- exists s2 acts, stop ?x = _ /\ _ => set (s1 := x) end.
    destruct (stop_spec s1 R) as (s2 & E & Ht & _ & _ & Hl).
    exists s2. eexists. split; [exact E|]. split; [rewrite Ht; reflexivity|].
    split.
    + rewrite Hl. cbn [s1 task reemitTrackEvent_ env listeners set_listeners].
      rewrite Er. apply removeListener_absent, L.
    + intros ev. rewrite detached_emit_eq. cbn [trace_of snd].
      rewrite relayed_emission, Hr. cbn [flat_map]. apply app_nil_r.
Qed.

Lemma setTracker_strands_the_relay_witness :
  let s1 := fst (setTracker broken_tracker [Subscriber 8] (demo_session 1)) in
  let former := snd (setTracker broken_tracker [Subscriber 8] (demo_session 1)) in
  exists s2 acts,
    stop s1 = (Ok RetThis, s2, acts) /\
    filter is_relayed (trace_of (detached_emit former demo_event s2))
    = heard (task s2) demo_event.
Proof.
  destruct (setTracker_strands_the_relay (demo_session 1) broken_tracker [Subscriber 8]
              eq_refl eq_refl eq_refl) as (_ & _ & s2 & acts & E & _ & _ & Hd).
  exists s2, acts. split; [exact E | exact (Hd demo_event)].
Defined.

(** * What a tick relays *)



(** * Resizing the video *)



(** * A canvas without area *)

(** X18: on a canvas whose width or height is 0, [getImageData] throws
    before [tracker.track] is called.  In the loop of a video, a tick that
    would extract throws an [IndexSizeError]: the tracker is not called, no
    callback is registered and no later frame runs anything, while the task
    still counts as running and its relay is still subscribed.  On a canvas
    element, the exception leaves [run()] and [trackCanvas_] without a call
    of the tracker, the task marked running and its relay subscribed. *)
Theorem extraction_needs_an_area (f : Frame) (s : Session) (fs : list Frame)
    (element : Element) (tr : Tracker) (en : Env) :
  (loop_in_flight s = true ->
   running_ (task s) = true ->
   zero_sized (width (loop s)) (height (loop s)) = true ->
   divides_tick (count (loop s) + 1) (freq (loop s)) = true ->
   ready f = true ->
   exists s',
     animationFrame f s = (Throw (DOMException "IndexSizeError"), s', []) /\
     running_ (task s') = true /\
     listeners (env s') = listeners (env s) /\
     rafPending (env s') = [] /\
     frames fs s' = (repeat [] (List.length fs), s')) /\
  (zero_sized (el_width element) (el_height element) = true ->
   exists s',
     trackCanvas_ element (Some tr) en
     = Launched (Throw (DOMException "IndexSizeError")) s' [TaskEmit "run" None] /\
     running_ (task s') = true /\
     reemitTrackEvent_ (task s') = Some (nextClosure en) /\
     listeners (env s') = listeners en ++ [Reemit (nextClosure en)]).
Proof.
  split.
  - intros H R Hz Hd Hr.
    destruct (in_flight_running _ H R) as (h & Hp & _).
    rewrite (frame_zero_sized _ _ _ _ Hp Hd Hr Hz).
    eexists. split; [reflexivity|].
    cbn [ticked task env set_pending listeners rafPending].
    repeat split; try assumption. apply frames_idle. reflexivity.
  - intros Hz. unfold trackCanvas_, launch. cbn [new_TrackerTask].
    rewrite run_canvas. cbv zeta. rewrite Hz.
    eexists. split; [reflexivity|]. repeat split.
Qed.

Lemma extraction_needs_an_area_witness :
  (exists s',
     animationFrame empty_frame (hidden_session 1)
     = (Throw (DOMException "IndexSizeError"), s', []) /\
     frames [empty_frame; empty_frame] s' = ([[]; []], s')) /\
  (exists s',
     trackCanvas_ hidden_canvas (Some demo_tracker) demo_env
     = Launched (Throw (DOMException "IndexSizeError")) s' [TaskEmit "run" None] /\
     listeners (env s') = [Subscriber 7; Reemit 0]).
Proof.
  split.
  - destruct (proj1 (extraction_needs_an_area empty_frame (hidden_session 1)
                       [empty_frame; empty_frame] hidden_canvas demo_tracker demo_env)
                eq_refl eq_refl eq_refl eq_refl eq_refl)
      as (s' & E & _ & _ & _ & F).
    exists s'. split; [exact E | exact F].
  - destruct (proj2 (extraction_needs_an_area empty_frame (hidden_session 1)
                       [empty_frame; empty_frame] hidden_canvas demo_tracker demo_env)
                eq_refl)
      as (s' & E & _ & _ & L).
    exists s'. split; [exact E | exact L].
Defined.
